(** * Graphic instance registration (NodeCG [server/graphics/registration])

    A shallow embedding of [RegistrationCoordinator]: the array held by the
    [graphics:instances] replicant, the socket handlers that mutate it
    ([graphic:registerSocket], [graphic:queryAvailability], [disconnect]),
    the delayed [_removeRegistration] and the rescan
    [_updateInstanceStatuses], together with the free functions
    [findGraphicManifest], [calcBundleGitMismatch] and
    [calcBundleVersionMismatch]; and the decisions of the HTTP routes
    [/instance/*] (same module) and [/bundles/:bundleName/graphics*]
    ([server/graphics/index]).

    JavaScript handlers run to completion on one thread, so every handler is
    a function from the coordinator's state to its next state.  A [TypeError]
    raised by a property read on [undefined] is an explicit [Threw] result. *)

From Stdlib Require Import Ascii String List Bool Arith ZArith Lia.
Import ListNotations.
Open Scope string_scope.
Open Scope list_scope.

(** ** JavaScript values used by the coordinator *)

(** [String.prototype.endsWith]: the last [length suffix] characters of [s]
    are [suffix]. *)
Definition endsWith (s suffix : string) : bool :=
  let n := String.length s in
  let m := String.length suffix in
  Nat.leb m n && String.eqb (substring (n - m) m s) suffix.

(** Completion of a JavaScript call: a value, or a thrown [TypeError]
    (reading a property of [undefined]). *)
Inductive JsError : Type :=
| TypeError_.

Inductive Completion (A : Type) : Type :=
| Returned (a : A)
| Threw (e : JsError).

Arguments Returned {A} a.
Arguments Threw {A} e.

(** [Boolean(x)] and the truthiness test of [if (x)] for an optional
    boolean property. *)
Definition Boolean_ (x : option bool) : bool :=
  match x with
  | Some b => b
  | None => false
  end.

(** Truthiness of an optional object ([undefined] is falsy, every object is
    truthy). *)
Definition truthy {A : Type} (x : option A) : bool :=
  match x with
  | Some _ => true
  | None => false
  end.

(** [x === null].  [None] stands for an absent value, [undefined] or [null];
    the test only occurs to the right of [!x ||], where it cannot change the
    result. *)
Definition isNull {A : Type} (x : option A) : bool :=
  negb (truthy x).

(** [Array.prototype.findIndex]. *)
Fixpoint findIndex {A : Type} (p : A -> bool) (l : list A) : option nat :=
  match l with
  | [] => None
  | x :: t => if p x then Some 0 else option_map S (findIndex p t)
  end.

(** [arr.splice(i, 1)]: the array without its element at [i], and the
    removed elements. *)
Definition splice1 {A : Type} (i : nat) (l : list A) : list A * list A :=
  (firstn i l ++ skipn (S i) l, firstn 1 (skipn i l)).

(** Assignment to a property of the object returned by
    [Array.prototype.find(p)]: the array holds that same object, so its first
    element satisfying [p] is the one that changes. *)
Fixpoint mutateFound {A : Type} (p : A -> bool) (f : A -> A) (l : list A) : list A :=
  match l with
  | [] => []
  | x :: t => if p x then f x :: t else x :: mutateFound p f t
  end.

(** ** Data model *)

(** [NodeCG.Bundle.GitData]; [hash] is the only property the coordinator
    reads. *)
Module GitData.
Record t : Type := mk { hash : string }.
End GitData.

(** [NodeCG.Bundle.Graphic]: [url] and [singleInstance] are the properties
    the coordinator reads. *)
Module Graphic.
Record t : Type := mk { url : string; singleInstance : option bool }.
End Graphic.

(** [NodeCG.Bundle]. *)
Module Bundle.
Record t : Type := mk {
  name : string;
  version : string;
  git : option GitData.t;
  graphics : list Graphic.t
}.
End Bundle.

(** The bundle manager, [bundles.find(bundleName)]: the registry of installed
    bundles as it stands when a handler runs. *)
Definition BundleManager : Type := string -> option Bundle.t.

(** [GraphicRegRequest], the payload of [graphic:registerSocket]. *)
Module GraphicRegRequest.
Record t : Type := mk {
  timestamp : Z;
  pathName : string;
  bundleName : string;
  bundleVersion : string;
  bundleGit : option GitData.t
}.
End GraphicRegRequest.

(** [GraphicsInstance], one element of the replicant's array. *)
Module GraphicsInstance.
Record t : Type := mk {
  ipv4 : string;
  timestamp : Z;
  bundleName : string;
  bundleVersion : string;
  bundleGit : option GitData.t;
  pathName : string;
  singleInstance : bool;
  socketId : string;
  open : bool;
  potentiallyOutOfDate : bool
}.

(** [instance.open = b]. *)
Definition set_open (b : bool) (i : t) : t :=
  mk (ipv4 i) (timestamp i) (bundleName i) (bundleVersion i) (bundleGit i)
     (pathName i) (singleInstance i) (socketId i) b (potentiallyOutOfDate i).

(** [instance.potentiallyOutOfDate = b]. *)
Definition set_potentiallyOutOfDate (b : bool) (i : t) : t :=
  mk (ipv4 i) (timestamp i) (bundleName i) (bundleVersion i) (bundleGit i)
     (pathName i) (singleInstance i) (socketId i) (open i) b.

(** [instance.singleInstance = b]. *)
Definition set_singleInstance (b : bool) (i : t) : t :=
  mk (ipv4 i) (timestamp i) (bundleName i) (bundleVersion i) (bundleGit i)
     (pathName i) b (socketId i) (open i) (potentiallyOutOfDate i).

(** A [GraphicsInstance] passed where a [GraphicRegRequest] is expected
    (structural typing): the callee sees the request's properties. *)
Definition asRegRequest (i : t) : GraphicRegRequest.t :=
  GraphicRegRequest.mk (timestamp i) (pathName i) (bundleName i)
                       (bundleVersion i) (bundleGit i).
End GraphicsInstance.

(** A connected socket: its id and [request.connection.remoteAddress]. *)
Module Socket.
Record t : Type := mk { id : string; remoteAddress : string }.
End Socket.

(** Events emitted on the coordinator's express [app]. *)
Inductive AppEvent : Type :=
| graphicOccupied (pathName : string)
| graphicAvailable (pathName : string).

(** The mutable state the handlers share: the replicant's array, the events
    emitted on [app] so far (oldest first), and the [setTimeout] callbacks
    that have been scheduled and have not run yet, by socket id. *)
Record Coordinator : Type := mkCoordinator {
  instancesRep : list GraphicsInstance.t;
  appEmitted : list AppEvent;
  pendingRemovals : list string
}.

Definition withInstances (c : Coordinator) (l : list GraphicsInstance.t) : Coordinator :=
  mkCoordinator l (appEmitted c) (pendingRemovals c).

Definition emit (e : AppEvent) (c : Coordinator) : Coordinator :=
  mkCoordinator (instancesRep c) (appEmitted c ++ [e]) (pendingRemovals c).

Definition setTimeout_remove (socketId : string) (c : Coordinator) : Coordinator :=
  mkCoordinator (instancesRep c) (appEmitted c) (pendingRemovals c ++ [socketId]).

(** The replicant is declared non-persistent: it starts empty. *)
Definition initial : Coordinator := mkCoordinator [] [] [].

(** ** Free functions of the module *)

(** [findGraphicManifest({pathName, bundleName})]. *)
Definition findGraphicManifest (bundles : BundleManager) (pathName bundleName : string)
  : option Graphic.t :=
  match bundles bundleName with
  | None => None
  | Some bundle =>
      find (fun graphic => String.eqb (Graphic.url graphic) pathName) (Bundle.graphics bundle)
  end.

(** [calcBundleGitMismatch(bundle, regRequest)].  The last line reads
    [regRequest.bundleGit!.hash] and [bundle.git!.hash]; the [!] is erased
    by the compiler, so the read of [hash] on [undefined] throws. *)
Definition calcBundleGitMismatch (bundle : Bundle.t) (regRequest : GraphicRegRequest.t)
  : Completion bool :=
  if truthy (GraphicRegRequest.bundleGit regRequest)
     && (negb (truthy (Bundle.git bundle)) || isNull (Bundle.git bundle))
  then Returned true
  else if negb (truthy (GraphicRegRequest.bundleGit regRequest)) && truthy (Bundle.git bundle)
  then Returned true
  else
    match GraphicRegRequest.bundleGit regRequest with
    | None => Threw TypeError_
    | Some requestGit =>
        match Bundle.git bundle with
        | None => Threw TypeError_
        | Some bundleGit =>
            Returned (negb (String.eqb (GitData.hash requestGit) (GitData.hash bundleGit)))
        end
    end.

(** [calcBundleVersionMismatch(bundle, regRequest)]. *)
Definition calcBundleVersionMismatch (bundle : Bundle.t) (regRequest : GraphicRegRequest.t)
  : bool :=
  negb (String.eqb (Bundle.version bundle) (GraphicRegRequest.bundleVersion regRequest)).

(** [calcBundleGitMismatch(b, r) || calcBundleVersionMismatch(b, r)]: the
    left operand is evaluated first and the right one only when it is
    false. *)
Definition calcMismatch (bundle : Bundle.t) (regRequest : GraphicRegRequest.t)
  : Completion bool :=
  match calcBundleGitMismatch bundle regRequest with
  | Threw e => Threw e
  | Returned true => Returned true
  | Returned false => Returned (calcBundleVersionMismatch bundle regRequest)
  end.

(** ** The coordinator's private methods *)

Definition bySocketId (socketId : string) (instance : GraphicsInstance.t) : bool :=
  String.eqb (GraphicsInstance.socketId instance) socketId.

Definition byOpenPathName (pathName : string) (instance : GraphicsInstance.t) : bool :=
  String.eqb (GraphicsInstance.pathName instance) pathName && GraphicsInstance.open instance.

(** [_addRegistration(registration)]: pushes [{...registration, open: true}]. *)
Definition _addRegistration (registration : GraphicsInstance.t) (c : Coordinator) : Coordinator :=
  withInstances c (instancesRep c ++ [GraphicsInstance.set_open true registration]).

(** [_removeRegistration(socketId)]: the removed instance, or [None] for the
    [false] returned when no instance has that socket id. *)
Definition _removeRegistration (socketId : string) (c : Coordinator)
  : Coordinator * option GraphicsInstance.t :=
  match findIndex (bySocketId socketId) (instancesRep c) with
  | None => (c, None)
  | Some registrationIndex =>
      let (rest, removed) := splice1 registrationIndex (instancesRep c) in
      (withInstances c rest, hd_error removed)
  end.

(** [_findRegistrationBySocketId(socketId)]. *)
Definition _findRegistrationBySocketId (socketId : string) (c : Coordinator)
  : option GraphicsInstance.t :=
  find (bySocketId socketId) (instancesRep c).

(** [_findOpenRegistrationByPathName(pathName)]. *)
Definition _findOpenRegistrationByPathName (pathName : string) (c : Coordinator)
  : option GraphicsInstance.t :=
  find (byOpenPathName pathName) (instancesRep c).

(** The body of the [forEach] callback of [_updateInstanceStatuses]: the
    instance after the callback, or the exception it threw (the instance is
    then as it was: both assignments come after the throwing call). *)
Definition updateInstanceStatus (bundles : BundleManager) (instance : GraphicsInstance.t)
  : Completion GraphicsInstance.t :=
  match bundles (GraphicsInstance.bundleName instance) with
  | None => Returned instance
  | Some bundle =>
      match findGraphicManifest bundles (GraphicsInstance.pathName instance)
                                (GraphicsInstance.bundleName instance) with
      | None => Returned instance
      | Some graphicManifest =>
          match calcMismatch bundle (GraphicsInstance.asRegRequest instance) with
          | Threw e => Threw e
          | Returned outOfDate =>
              Returned
                (GraphicsInstance.set_singleInstance
                   (Boolean_ (Graphic.singleInstance graphicManifest))
                   (GraphicsInstance.set_potentiallyOutOfDate outOfDate instance))
          end
      end
  end.

(** [arr.forEach(callback)] for that callback: an exception leaves the loop,
    the instances visited before it keep their new values. *)
Fixpoint forEachInstance (bundles : BundleManager) (l : list GraphicsInstance.t)
  : list GraphicsInstance.t * Completion unit :=
  match l with
  | [] => ([], Returned tt)
  | instance :: rest =>
      match updateInstanceStatus bundles instance with
      | Threw e => (instance :: rest, Threw e)
      | Returned instance' =>
          let (rest', completion) := forEachInstance bundles rest in
          (instance' :: rest', completion)
      end
  end.

(** [_updateInstanceStatuses()], the listener of [bundleChanged] and
    [gitChanged]. *)
Definition _updateInstanceStatuses (bundles : BundleManager) (c : Coordinator)
  : Coordinator * Completion unit :=
  let (instances, completion) := forEachInstance bundles (instancesRep c) in
  (withInstances c instances, completion).

(** ** Socket handlers *)

(** The local [pathName] of the [graphic:registerSocket] handler. *)
Definition normalizedPathName (regRequest : GraphicRegRequest.t) : string :=
  let bundleName := GraphicRegRequest.bundleName regRequest in
  let pathName := GraphicRegRequest.pathName regRequest in
  if endsWith pathName (String.append "/" (String.append bundleName "/graphics/"))
  then String.append pathName "index.html"
  else pathName.

(** The object literal passed to [_addRegistration]: the request's own
    properties spread first, then the five added ones. *)
Definition newRegistration (socket : Socket.t) (regRequest : GraphicRegRequest.t)
  (singleInstance potentiallyOutOfDate : bool) : GraphicsInstance.t :=
  GraphicsInstance.mk
    (Socket.remoteAddress socket)
    (GraphicRegRequest.timestamp regRequest)
    (GraphicRegRequest.bundleName regRequest)
    (GraphicRegRequest.bundleVersion regRequest)
    (GraphicRegRequest.bundleGit regRequest)
    (GraphicRegRequest.pathName regRequest)
    singleInstance
    (Socket.id socket)
    true
    potentiallyOutOfDate.

(** The end of the [graphic:registerSocket] handler, from
    [if (existingSocketRegistration)] to the last [cb(null, true)]; [pathName]
    is the handler's local variable.  The second component is the value
    passed to the acknowledgement [cb(null, _)], or the exception that left
    the handler before [cb] was called. *)
Definition openOrAddRegistration (bundle : Bundle.t) (graphicManifest : Graphic.t)
  (socket : Socket.t) (regRequest : GraphicRegRequest.t) (pathName : string)
  (c : Coordinator) : Coordinator * Completion bool :=
  let existingSocketRegistration := _findRegistrationBySocketId (Socket.id socket) c in
  match existingSocketRegistration with
  | Some _ =>
      (withInstances c
         (mutateFound (bySocketId (Socket.id socket))
                      (GraphicsInstance.set_open true) (instancesRep c)),
       Returned true)
  | None =>
      match calcMismatch bundle regRequest with
      | Threw e => (c, Threw e)
      | Returned potentiallyOutOfDate =>
          let singleInstance := Boolean_ (Graphic.singleInstance graphicManifest) in
          let c1 :=
            _addRegistration
              (newRegistration socket regRequest singleInstance potentiallyOutOfDate) c in
          let c2 := if singleInstance then emit (graphicOccupied pathName) c1 else c1 in
          (c2, Returned true)
      end
  end.

(** The [graphic:registerSocket] handler. *)
Definition registerSocket (bundles : BundleManager) (socket : Socket.t)
  (regRequest : GraphicRegRequest.t) (c : Coordinator) : Coordinator * Completion bool :=
  let bundleName := GraphicRegRequest.bundleName regRequest in
  let pathName := normalizedPathName regRequest in
  match bundles bundleName with
  | None => (c, Returned false)
  | Some bundle =>
      match findGraphicManifest bundles pathName bundleName with
      | None => (c, Returned false)
      | Some graphicManifest =>
          let existingPathRegistration := _findOpenRegistrationByPathName pathName c in
          match existingPathRegistration, Boolean_ (Graphic.singleInstance graphicManifest) with
          | Some existing, true =>
              if String.eqb (GraphicsInstance.socketId existing) (Socket.id socket)
              then (c, Returned true)
              else (c, Returned (negb (GraphicsInstance.open existing)))
          | _, _ => openOrAddRegistration bundle graphicManifest socket regRequest pathName c
          end
      end
  end.

(** The [graphic:queryAvailability] handler: the value passed to [cb]. *)
Definition queryAvailability (pathName : string) (c : Coordinator) : bool :=
  negb (truthy (_findOpenRegistrationByPathName pathName c)).

(** The [disconnect] handler. *)
Definition disconnect (socket : Socket.t) (c : Coordinator) : Coordinator :=
  match _findRegistrationBySocketId (Socket.id socket) c with
  | None => c
  | Some registration =>
      let c1 :=
        withInstances c
          (mutateFound (bySocketId (Socket.id socket))
                       (GraphicsInstance.set_open false) (instancesRep c)) in
      let c2 :=
        if GraphicsInstance.singleInstance registration
        then emit (graphicAvailable (GraphicsInstance.pathName registration)) c1
        else c1 in
      setTimeout_remove (Socket.id socket) c2
  end.

(** ** The event loop *)

(** One pending timer fewer for [socketId]. *)
Fixpoint clearTimeout (socketId : string) (pending : list string) : list string :=
  match pending with
  | [] => []
  | s :: t => if String.eqb s socketId then t else s :: clearTimeout socketId t
  end.

(** The callback given to [setTimeout] by the [disconnect] handler; it runs
    only if it was scheduled. *)
Definition removalTimeout (socketId : string) (c : Coordinator) : Coordinator :=
  if existsb (String.eqb socketId) (pendingRemovals c)
  then
    let c1 := fst (_removeRegistration socketId c) in
    mkCoordinator (instancesRep c1) (appEmitted c1) (clearTimeout socketId (pendingRemovals c1))
  else c.

(** What the event loop dispatches to the coordinator. *)
Inductive Event : Type :=
| graphic_registerSocket (socket : Socket.t) (regRequest : GraphicRegRequest.t)
| graphic_queryAvailability (pathName : string)
| socket_disconnect (socket : Socket.t)
| timeout (socketId : string)
| bundleChanged
| gitChanged.

(** One turn of the event loop, with the bundle manager as it is at that
    turn.  An exception leaves the handler; the loop goes on. *)
Definition step (bundles : BundleManager) (e : Event) (c : Coordinator) : Coordinator :=
  match e with
  | graphic_registerSocket socket regRequest => fst (registerSocket bundles socket regRequest c)
  | graphic_queryAvailability _ => c
  | socket_disconnect socket => disconnect socket c
  | timeout socketId => removalTimeout socketId c
  | bundleChanged => fst (_updateInstanceStatuses bundles c)
  | gitChanged => fst (_updateInstanceStatuses bundles c)
  end.

Fixpoint run (trace : list (BundleManager * Event)) (c : Coordinator) : Coordinator :=
  match trace with
  | [] => c
  | (bundles, e) :: rest => run rest (step bundles e c)
  end.

(** The states the coordinator can be in. *)
Inductive reachable : Coordinator -> Prop :=
| reachable_initial : reachable initial
| reachable_step bundles e c : reachable c -> reachable (step bundles e c).

(** Number of open instances recorded under [pathName]. *)
Definition openCount (pathName : string) (c : Coordinator) : nat :=
  length (filter (byOpenPathName pathName) (instancesRep c)).

(** No two instances share a socket id. *)
Definition uniqueSocketIds (c : Coordinator) : Prop :=
  NoDup (map GraphicsInstance.socketId (instancesRep c)).

(** The events that concern one graphic: registrations that name its bundle
    and its path, availability queries, disconnects and timers. *)
Definition concernsPath (bundleName pathName : string) (e : Event) : Prop :=
  match e with
  | graphic_registerSocket _ regRequest =>
      GraphicRegRequest.bundleName regRequest = bundleName /\
      GraphicRegRequest.pathName regRequest = pathName
  | graphic_queryAvailability _ => True
  | socket_disconnect _ => True
  | timeout _ => True
  | bundleChanged => False
  | gitChanged => False
  end.

(** The loop run with one bundle manager throughout. *)
Definition runWith (bundles : BundleManager) (events : list Event) (c : Coordinator)
  : Coordinator :=
  run (map (pair bundles) events) c.

(** Staleness as the specification words it, to compare with
    [calcBundleGitMismatch] and [calcBundleVersionMismatch]: the captured
    revision differs from the bundle's current one (an absent revision
    differs from a present one, and not from an absent one), or the captured
    version differs from the bundle's current one. *)
Definition revisionDiffers (captured current : option GitData.t) : bool :=
  match captured, current with
  | Some capturedGit, Some currentGit =>
      negb (String.eqb (GitData.hash capturedGit) (GitData.hash currentGit))
  | None, None => false
  | _, _ => true
  end.

Definition staleAgainst (bundle : Bundle.t) (instance : GraphicsInstance.t) : bool :=
  revisionDiffers (GraphicsInstance.bundleGit instance) (Bundle.git bundle)
  || negb (String.eqb (GraphicsInstance.bundleVersion instance) (Bundle.version bundle)).

(** The socket an event belongs to, when it belongs to one. *)
Definition eventSocket (e : Event) : option string :=
  match e with
  | graphic_registerSocket socket _ => Some (Socket.id socket)
  | socket_disconnect socket => Some (Socket.id socket)
  | timeout socketId => Some socketId
  | graphic_queryAvailability _ => None
  | bundleChanged => None
  | gitChanged => None
  end.

(** The instances of every socket but [socketId], in the array's order. *)
Definition instancesOfOthers (socketId : string) (c : Coordinator) : list GraphicsInstance.t :=
  filter (fun instance => negb (bySocketId socketId instance)) (instancesRep c).

(** Every closed instance has a removal pending for its socket. *)
Definition closedAwaitRemoval (c : Coordinator) : Prop :=
  forall instance,
    In instance (instancesRep c) ->
    GraphicsInstance.open instance = false ->
    In (GraphicsInstance.socketId instance) (pendingRemovals c).

(** ** The HTTP routes

    [String.prototype.split(sep)] for a one-character separator, and
    [Array.prototype.join(sep)]. *)
Fixpoint split (sep : Ascii.ascii) (s : string) : list string :=
  match s with
  | EmptyString => [EmptyString]
  | String ch rest =>
      if Ascii.eqb ch sep then EmptyString :: split sep rest
      else
        match split sep rest with
        | [] => [String ch EmptyString]
        | first :: others => String ch first :: others
        end
  end.

Fixpoint join (sep : string) (l : list string) : string :=
  match l with
  | [] => EmptyString
  | [x] => x
  | x :: t => String.append x (String.append sep (join sep t))
  end.

Definition slash : Ascii.ascii := "/"%char.

(** [NodeCG.Bundle] as the graphics routes read it: [dir], the [file] of each
    graphic, and [soundCues] (only its length is read). *)
Module GraphicsLib.
Record Graphic : Type := mkGraphic { file : string }.

Record Bundle : Type := mkBundle {
  dir : string;
  graphics : list Graphic;
  soundCues : option (list string)
}.

(** What a route handler does with the request.  A file location is the
    list of arguments given to Node's [path.join]. *)
Inductive Response : Type :=
| next
| redirect (url : string)
| injectScripts (fileLocation : list string) (createApiInstance : option Bundle)
    (sound : option bool)
| sendFile (fileLocation : list string).

(** The parts of an express request the handlers read: [req.path],
    [req.url], [req.params.bundleName] and [req.params[0]]. *)
Record Request : Type := mkRequest {
  path : string;
  url : string;
  params_bundleName : string;
  params_0 : string
}.

(** The local [resName] of the [/bundles/:bundleName/graphics*] handler, past
    the redirect. *)
Definition resName (req : Request) : string :=
  if negb (endsWith (path req)
             (String.append "/" (String.append (params_bundleName req) "/graphics/")))
  then params_0 req
  else "index.html".

(** The [some] loop that sets [isGraphic]. *)
Definition isGraphic (bundle : Bundle) (name : string) : bool :=
  existsb (fun graphic =>
             String.eqb (String.append "/" (file graphic)) name
             || String.eqb (file graphic) name)
          (graphics bundle).

(** [app.get('/bundles/:bundleName/graphics*', authCheck, ...)], once
    [authCheck] has let the request through.  [sendFile] stands for the call
    of [res.sendFile] with its error callback, which runs later. *)
Definition graphicsRoute (bundles : string -> option Bundle) (req : Request) : Response :=
  let bundleName := params_bundleName req in
  match bundles bundleName with
  | None => next
  | Some bundle =>
      if endsWith (path req) (String.append "/" (String.append bundleName "/graphics"))
      then redirect (String.append (url req) "/")
      else
        let fileLocation := [dir bundle; "graphics"; resName req] in
        if isGraphic bundle (resName req)
        then
          injectScripts fileLocation (Some bundle)
            (option_map (fun cues => Nat.ltb 0 (length cues)) (soundCues bundle))
        else sendFile fileLocation
  end.

(** [app.get('/instance/*', ...)] of the registration coordinator;
    [BUILD_PATH] is the module's constant, computed from [__dirname]. *)
Definition instanceRoute (BUILD_PATH : string) (reqPath : string) : Response :=
  let resName := join "/" (skipn 2 (split slash reqPath)) in
  if endsWith resName ".html"
  then injectScripts [BUILD_PATH; resName] None None
  else next.
End GraphicsLib.

(** ** A sample installation

    Bundle [demo@1.0.0] declares the single-instance graphic
    [/bundles/demo/graphics/index.html] and the ordinary graphic
    [/bundles/demo/graphics/info.html]. *)

Definition demoIndex : string := "/bundles/demo/graphics/index.html".
Definition demoDirectory : string := "/bundles/demo/graphics/".
Definition demoInfo : string := "/bundles/demo/graphics/info.html".

Definition demoBundle (git : option GitData.t) : Bundle.t :=
  Bundle.mk "demo" "1.0.0" git
    [Graphic.mk demoIndex (Some true); Graphic.mk demoInfo None].

(** A bundle manager that knows [demo] only, at the given git revision. *)
Definition demoBundles (git : option GitData.t) : BundleManager :=
  fun bundleName => if String.eqb bundleName "demo" then Some (demoBundle git) else None.

Definition revision (hash : string) : option GitData.t := Some (GitData.mk hash).

Definition demoRequest (pathName : string) (git : option GitData.t) : GraphicRegRequest.t :=
  GraphicRegRequest.mk 0 pathName "demo" "1.0.0" git.

Definition socketA : Socket.t := Socket.mk "A" "10.0.0.1".
Definition socketB : Socket.t := Socket.mk "B" "10.0.0.2".

(** Socket [A] holds the index graphic of [demo]. *)
Definition occupiedByA : Coordinator :=
  run [(demoBundles (revision "abc"),
        graphic_registerSocket socketA (demoRequest demoIndex (revision "abc")))]
      initial.

(** Socket [A] registered, disconnected, and registered again under the same
    id before the timer of its disconnect ran. *)
Definition reopenedByA : Coordinator :=
  run [(demoBundles (revision "abc"),
        graphic_registerSocket socketA (demoRequest demoIndex (revision "abc")));
       (demoBundles (revision "abc"), socket_disconnect socketA);
       (demoBundles (revision "abc"),
        graphic_registerSocket socketA (demoRequest demoIndex (revision "abc")))]
      initial.

(** Socket [B] shows the info graphic of [demo] and nobody shows the index
    graphic. *)
Definition infoShownByB : Coordinator :=
  run [(demoBundles (revision "abc"),
        graphic_registerSocket socketB (demoRequest demoInfo (revision "abc")))]
      initial.

(** [A] holds the index graphic of [demo] and [B] shows its info graphic. *)
Definition indexByA_infoByB : Coordinator :=
  run [(demoBundles (revision "abc"),
        graphic_registerSocket socketA (demoRequest demoIndex (revision "abc")));
       (demoBundles (revision "abc"),
        graphic_registerSocket socketB (demoRequest demoInfo (revision "abc")))]
      initial.

(** [A] shows the info graphic of [demo] and reported no git data; [B] holds
    the index graphic, registered at revision [abc]. *)
Definition infoByA_indexByB : Coordinator :=
  run [(demoBundles (revision "abc"),
        graphic_registerSocket socketA (demoRequest demoInfo None));
       (demoBundles (revision "abc"),
        graphic_registerSocket socketB (demoRequest demoIndex (revision "abc")))]
      initial.

(** Socket [B] showed the info graphic of [demo] and has disconnected; its
    timer has not run yet. *)
Definition infoClosedByB : Coordinator :=
  run [(demoBundles (revision "abc"),
        graphic_registerSocket socketB (demoRequest demoInfo (revision "abc")));
       (demoBundles (revision "abc"), socket_disconnect socketB)]
      initial.




(** ** Arrays: [find], [findIndex], [splice] and in-place mutation *)

Section ArrayFacts.
Context {A : Type}.
Implicit Types (p : A -> bool) (f : A -> A) (l before after : list A) (x y : A).

Lemma find_app_none p l1 l2 :
  find p l1 = None -> find p (l1 ++ l2) = find p l2.
Proof.
  induction l1 as [|x t IH]; simpl; [reflexivity|].
  destruct (p x); [discriminate | exact IH].
Qed.

Lemma find_app_some p l1 l2 x :
  find p l1 = Some x -> find p (l1 ++ l2) = Some x.
Proof.
  induction l1 as [|y t IH]; simpl; [discriminate|].
  destruct (p y); [trivial | exact IH].
Qed.

Lemma find_split p l x :
  find p l = Some x ->
  exists before after, l = before ++ x :: after /\ find p before = None /\ p x = true.
Proof.
  induction l as [|y t IH]; simpl; [discriminate|].
  destruct (p y) eqn:Hy.
  - intros [= ->]. exists [], t. auto.
  - intros H. destruct (IH H) as (b & a & -> & Hb & Hx).
    exists (y :: b), a. simpl. rewrite Hy. auto.
Qed.

Lemma mutateFound_length p f l : length (mutateFound p f l) = length l.
Proof.
  induction l as [|x t IH]; simpl; [reflexivity|].
  destruct (p x); simpl; congruence.
Qed.

Lemma mutateFound_map {B : Type} (g : A -> B) p f l :
  (forall x, g (f x) = g x) -> map g (mutateFound p f l) = map g l.
Proof.
  intros Hg. induction l as [|x t IH]; simpl; [reflexivity|].
  destruct (p x); simpl; congruence.
Qed.

Lemma mutateFound_none p f l : find p l = None -> mutateFound p f l = l.
Proof.
  induction l as [|x t IH]; simpl; [reflexivity|].
  destruct (p x); [discriminate|]. intros H. now rewrite IH.
Qed.

Lemma mutateFound_app p f before x after :
  find p before = None -> p x = true ->
  mutateFound p f (before ++ x :: after) = before ++ f x :: after.
Proof.
  intros Hb Hx. induction before as [|y t IH]; simpl in *.
  - now rewrite Hx.
  - destruct (p y); [discriminate|]. now rewrite IH.
Qed.



Lemma In_mutateFound p f l y :
  In y (mutateFound p f l) ->
  In y l \/ exists x, find p l = Some x /\ y = f x.
Proof.
  induction l as [|x t IH]; simpl; [tauto|].
  destruct (p x) eqn:Hx; simpl.
  - intros [<- | H]; [right; eauto | left; auto].
  - intros [<- | H]; [left; auto|].
    destruct (IH H) as [H' | H']; auto.
Qed.

Lemma findIndex_none p l : find p l = None -> findIndex p l = None.
Proof.
  induction l as [|x t IH]; simpl; [reflexivity|].
  destruct (p x); [discriminate|]. intros H. now rewrite IH.
Qed.

Lemma findIndex_app p before x after :
  find p before = None -> p x = true ->
  findIndex p (before ++ x :: after) = Some (length before).
Proof.
  intros Hb Hx. induction before as [|y t IH]; simpl in *.
  - now rewrite Hx.
  - destruct (p y); [discriminate|]. now rewrite IH.
Qed.

Lemma splice1_app before x after :
  splice1 (length before) (before ++ x :: after) = (before ++ after, [x]).
Proof.
  unfold splice1. induction before as [|y t IH]; simpl.
  - reflexivity.
  - injection IH as IH1 IH2. simpl in IH2. now rewrite IH1, IH2.
Qed.

End ArrayFacts.

(** ** The helpers of the coordinator *)

Lemma bySocketId_true socketId instance :
  bySocketId socketId instance = true <-> GraphicsInstance.socketId instance = socketId.
Proof. unfold bySocketId. apply String.eqb_eq. Qed.

Lemma byOpenPathName_true pathName instance :
  byOpenPathName pathName instance = true <->
  GraphicsInstance.pathName instance = pathName /\ GraphicsInstance.open instance = true.
Proof.
  unfold byOpenPathName. rewrite andb_true_iff, String.eqb_eq. reflexivity.
Qed.

Lemma find_bySocketId_none socketId l :
  find (bySocketId socketId) l = None <-> ~ In socketId (map GraphicsInstance.socketId l).
Proof.
  split.
  - intros H Hin. apply in_map_iff in Hin as (x & Hx & Hin).
    apply (find_none _ _ H) in Hin. apply bySocketId_true in Hx. congruence.
  - intros H. destruct (find (bySocketId socketId) l) as [x|] eqn:E; [|reflexivity].
    apply find_some in E as [Hin Hx]. apply bySocketId_true in Hx.
    exfalso. apply H. apply in_map_iff. eauto.
Qed.



Lemma openCount_zero pathName c :
  openCount pathName c = 0 <-> _findOpenRegistrationByPathName pathName c = None.
Proof.
  unfold openCount, _findOpenRegistrationByPathName.
  induction (instancesRep c) as [|x t IH]; simpl; [tauto|].
  destruct (byOpenPathName pathName x); simpl; [split; discriminate | exact IH].
Qed.

(** [_removeRegistration] takes out the first instance of the socket, and
    nothing else. *)
Lemma _removeRegistration_found socketId c r :
  _findRegistrationBySocketId socketId c = Some r ->
  exists before after,
    instancesRep c = before ++ r :: after /\
    find (bySocketId socketId) before = None /\
    _removeRegistration socketId c = (withInstances c (before ++ after), Some r).
Proof.
  unfold _findRegistrationBySocketId, _removeRegistration. intros H.
  destruct (find_split _ _ _ H) as (before & after & Hl & Hb & Hr).
  exists before, after. repeat split; trivial.
  rewrite Hl, (findIndex_app _ _ _ _ Hb Hr), splice1_app. reflexivity.
Qed.

Lemma _removeRegistration_missing socketId c :
  _findRegistrationBySocketId socketId c = None ->
  _removeRegistration socketId c = (c, None).
Proof.
  unfold _findRegistrationBySocketId, _removeRegistration. intros H.
  now rewrite (findIndex_none _ _ H).
Qed.

(** ** The four outcomes of [calcBundleGitMismatch] *)

Lemma calcBundleGitMismatch_table bundle regRequest :
  calcBundleGitMismatch bundle regRequest =
  match GraphicRegRequest.bundleGit regRequest, Bundle.git bundle with
  | Some _, None => Returned true
  | None, Some _ => Returned true
  | Some requestGit, Some bundleGit =>
      Returned (negb (String.eqb (GitData.hash requestGit) (GitData.hash bundleGit)))
  | None, None => Threw TypeError_
  end.
Proof.
  unfold calcBundleGitMismatch, isNull, truthy.
  destruct (GraphicRegRequest.bundleGit regRequest), (Bundle.git bundle); reflexivity.
Qed.

(** The rescan touches two properties of an instance and no other. *)
Lemma updateInstanceStatus_keeps bundles instance instance' :
  updateInstanceStatus bundles instance = Returned instance' ->
  GraphicsInstance.socketId instance' = GraphicsInstance.socketId instance /\
  GraphicsInstance.pathName instance' = GraphicsInstance.pathName instance /\
  GraphicsInstance.open instance' = GraphicsInstance.open instance /\
  GraphicsInstance.bundleName instance' = GraphicsInstance.bundleName instance /\
  GraphicsInstance.bundleVersion instance' = GraphicsInstance.bundleVersion instance /\
  GraphicsInstance.bundleGit instance' = GraphicsInstance.bundleGit instance.
Proof.
  unfold updateInstanceStatus.
  destruct (bundles _); [|intros [= <-]; auto 6].
  destruct (findGraphicManifest _ _ _); [|intros [= <-]; auto 6].
  destruct (calcMismatch _ _); [|discriminate].
  intros [= <-]. simpl. auto 6.
Qed.

Lemma forEachInstance_socketIds bundles l :
  map GraphicsInstance.socketId (fst (forEachInstance bundles l)) =
  map GraphicsInstance.socketId l.
Proof.
  induction l as [|x t IH]; simpl; [reflexivity|].
  destruct (updateInstanceStatus bundles x) as [x'|e] eqn:Hx; [|reflexivity].
  destruct (forEachInstance bundles t) as [t' k]. simpl in *.
  apply updateInstanceStatus_keeps in Hx as (-> & _). now rewrite IH.
Qed.

(** ** Unique socket ids: an invariant of every handler *)

Lemma openOrAddRegistration_uniqueSocketIds bundle graphicManifest socket regRequest pathName c :
  uniqueSocketIds c ->
  uniqueSocketIds
    (fst (openOrAddRegistration bundle graphicManifest socket regRequest pathName c)).
Proof.
  unfold uniqueSocketIds, openOrAddRegistration. intros Hc.
  destruct (_findRegistrationBySocketId (Socket.id socket) c) eqn:Hs; simpl.
  - now rewrite mutateFound_map by reflexivity.
  - destruct (calcMismatch bundle regRequest) as [outOfDate|]; [|exact Hc].
    assert (Hadd : NoDup (map GraphicsInstance.socketId
              (instancesRep c ++
               [GraphicsInstance.set_open true
                  (newRegistration socket regRequest
                     (Boolean_ (Graphic.singleInstance graphicManifest)) outOfDate)]))).
    { rewrite map_app. apply NoDup_app; [exact Hc | repeat constructor; simpl; tauto |].
      simpl. intros s Hin [<- | []]. apply find_bySocketId_none in Hs. tauto. }
    destruct (Boolean_ (Graphic.singleInstance graphicManifest)); exact Hadd.
Qed.

Lemma registerSocket_uniqueSocketIds bundles socket regRequest c :
  uniqueSocketIds c -> uniqueSocketIds (fst (registerSocket bundles socket regRequest c)).
Proof.
  unfold registerSocket. intros Hc.
  destruct (bundles _) as [bundle|]; [|exact Hc].
  destruct (findGraphicManifest _ _ _) as [graphicManifest|]; [|exact Hc].
  pose proof (openOrAddRegistration_uniqueSocketIds bundle graphicManifest socket regRequest
                (normalizedPathName regRequest) c Hc) as Hrest.
  destruct (_findOpenRegistrationByPathName _ c) as [existing|]; [|exact Hrest].
  destruct (Boolean_ (Graphic.singleInstance graphicManifest)); [|exact Hrest].
  destruct (String.eqb _ _); exact Hc.
Qed.

Lemma disconnect_uniqueSocketIds socket c :
  uniqueSocketIds c -> uniqueSocketIds (disconnect socket c).
Proof.
  unfold uniqueSocketIds, disconnect. intros Hc.
  destruct (_findRegistrationBySocketId (Socket.id socket) c) as [r|]; [|exact Hc].
  destruct (GraphicsInstance.singleInstance r); simpl;
    now rewrite mutateFound_map by reflexivity.
Qed.

Lemma _removeRegistration_uniqueSocketIds socketId c :
  uniqueSocketIds c -> uniqueSocketIds (fst (_removeRegistration socketId c)).
Proof.
  unfold uniqueSocketIds. intros Hc.
  destruct (_findRegistrationBySocketId socketId c) as [r|] eqn:Hr.
  - destruct (_removeRegistration_found _ _ _ Hr) as (before & after & Hl & _ & ->).
    simpl. rewrite Hl, map_app in Hc. simpl in Hc.
    rewrite map_app. eapply NoDup_remove_1. exact Hc.
  - now rewrite (_removeRegistration_missing _ _ Hr).
Qed.

Lemma step_uniqueSocketIds bundles e c :
  uniqueSocketIds c -> uniqueSocketIds (step bundles e c).
Proof.
  intros Hc. destruct e; simpl; trivial.
  - now apply registerSocket_uniqueSocketIds.
  - now apply disconnect_uniqueSocketIds.
  - unfold removalTimeout. destruct (existsb _ _); [|exact Hc].
    apply (_removeRegistration_uniqueSocketIds socketId) in Hc. exact Hc.
  - unfold _updateInstanceStatuses, uniqueSocketIds.
    pose proof (forEachInstance_socketIds bundles (instancesRep c)) as H.
    destruct (forEachInstance bundles (instancesRep c)). simpl in *. now rewrite H.
  - unfold _updateInstanceStatuses, uniqueSocketIds.
    pose proof (forEachInstance_socketIds bundles (instancesRep c)) as H.
    destruct (forEachInstance bundles (instancesRep c)). simpl in *. now rewrite H.
Qed.

(** Socket ids are unique among the instances of every reachable state. *)
Theorem reachable_uniqueSocketIds c : reachable c -> uniqueSocketIds c.
Proof.
  induction 1 as [|bundles e c _ IH].
  - constructor.
  - now apply step_uniqueSocketIds.
Qed.

Lemma reachable_run trace c : reachable c -> reachable (run trace c).
Proof.
  revert c. induction trace as [|[bundles e] rest IH]; simpl; intros c Hc.
  - exact Hc.
  - apply IH. now constructor.
Qed.

Lemma reachable_uniqueSocketIds_witness : uniqueSocketIds indexByA_infoByB.
Proof.
  apply reachable_uniqueSocketIds. unfold indexByA_infoByB.
  apply reachable_run. constructor.
Defined.

(** ** The branches of [graphic:registerSocket] *)

Section RegisterBranches.
Variable bundles : BundleManager.
Variable socket : Socket.t.
Variable regRequest : GraphicRegRequest.t.
Variable c : Coordinator.

Let bundleName := GraphicRegRequest.bundleName regRequest.
Let pathName := normalizedPathName regRequest.

Lemma findGraphicManifest_bundle graphicManifest :
  findGraphicManifest bundles pathName bundleName = Some graphicManifest ->
  exists bundle, bundles bundleName = Some bundle.
Proof.
  unfold findGraphicManifest. destruct (bundles bundleName) as [bundle|]; [eauto | discriminate].
Qed.

Lemma registerSocket_unknownBundle :
  bundles bundleName = None ->
  registerSocket bundles socket regRequest c = (c, Returned false).
Proof.
  unfold registerSocket. fold bundleName. now intros ->.
Qed.

Lemma registerSocket_unknownGraphic :
  findGraphicManifest bundles pathName bundleName = None ->
  registerSocket bundles socket regRequest c = (c, Returned false).
Proof.
  unfold registerSocket. fold bundleName pathName. intros ->.
  now destruct (bundles bundleName).
Qed.

(** The check of line 75 succeeded: the reply is whether the caller owns the
    open instance that [find] returned. *)
Lemma registerSocket_occupied graphicManifest existing :
  findGraphicManifest bundles pathName bundleName = Some graphicManifest ->
  Boolean_ (Graphic.singleInstance graphicManifest) = true ->
  _findOpenRegistrationByPathName pathName c = Some existing ->
  registerSocket bundles socket regRequest c =
  (c, Returned (String.eqb (GraphicsInstance.socketId existing) (Socket.id socket))).
Proof.
  intros Hg Hsi He. destruct (findGraphicManifest_bundle _ Hg) as [bundle Hb].
  unfold registerSocket. fold bundleName pathName. rewrite Hb, Hg, He, Hsi.
  destruct (String.eqb _ _); [reflexivity|].
  apply find_some in He as [_ He]. apply byOpenPathName_true in He as [_ Hopen].
  now rewrite Hopen.
Qed.

(** The check of line 75 failed: the handler goes on to line 84. *)
Lemma registerSocket_free bundle graphicManifest :
  bundles bundleName = Some bundle ->
  findGraphicManifest bundles pathName bundleName = Some graphicManifest ->
  (Boolean_ (Graphic.singleInstance graphicManifest) = true ->
   _findOpenRegistrationByPathName pathName c = None) ->
  registerSocket bundles socket regRequest c =
  openOrAddRegistration bundle graphicManifest socket regRequest pathName c.
Proof.
  intros Hb Hg Hfree. unfold registerSocket. fold bundleName pathName. rewrite Hb, Hg.
  destruct (Boolean_ (Graphic.singleInstance graphicManifest)).
  - now rewrite Hfree.
  - now destruct (_findOpenRegistrationByPathName pathName c).
Qed.

(** Every run of the handler is one of the four above. *)
Lemma registerSocket_branches :
  bundles bundleName = None \/
  findGraphicManifest bundles pathName bundleName = None \/
  (exists graphicManifest existing,
     findGraphicManifest bundles pathName bundleName = Some graphicManifest /\
     Boolean_ (Graphic.singleInstance graphicManifest) = true /\
     _findOpenRegistrationByPathName pathName c = Some existing) \/
  (exists bundle graphicManifest,
     bundles bundleName = Some bundle /\
     findGraphicManifest bundles pathName bundleName = Some graphicManifest /\
     (Boolean_ (Graphic.singleInstance graphicManifest) = true ->
      _findOpenRegistrationByPathName pathName c = None)).
Proof.
  destruct (bundles bundleName) as [bundle|] eqn:Hb; [|now left].
  destruct (findGraphicManifest bundles pathName bundleName) as [g|] eqn:Hg;
    [|now right; left].
  destruct (Boolean_ (Graphic.singleInstance g)) eqn:Hsi.
  - destruct (_findOpenRegistrationByPathName pathName c) as [existing|] eqn:He.
    + right. right. left. eauto.
    + right. right. right. eauto 6.
  - right. right. right. exists bundle, g. repeat split; trivial. congruence.
Qed.

(** From line 84 on, nothing is declined. *)
Lemma openOrAddRegistration_reply bundle graphicManifest path :
  snd (openOrAddRegistration bundle graphicManifest socket regRequest path c) <> Returned false.
Proof.
  unfold openOrAddRegistration.
  destruct (_findRegistrationBySocketId (Socket.id socket) c); simpl; [discriminate|].
  destruct (calcMismatch bundle regRequest); simpl; discriminate.
Qed.

End RegisterBranches.

(** ** Declined registrations *)

(** C3.  A registration is declined when the bundle is unknown, when the
    bundle declares no graphic at the (normalized) path, or when the graphic
    is single-instance and the open instance found for the path belongs to
    another socket.  In each case [cb(null, false)] is called and the
    coordinator's state, the array included, is what it was.  Conversely a
    declined registration never changes the state and has one of these three
    causes. *)
Theorem registerSocket_declined_unchanged
  (bundles : BundleManager) (socket : Socket.t) (regRequest : GraphicRegRequest.t)
  (c : Coordinator) :
  let bundleName := GraphicRegRequest.bundleName regRequest in
  let pathName := normalizedPathName regRequest in
  let unknownBundle := bundles bundleName = None in
  let unknownGraphic :=
    exists bundle, bundles bundleName = Some bundle /\
                   findGraphicManifest bundles pathName bundleName = None in
  let occupiedByOther :=
    exists graphicManifest existing,
      findGraphicManifest bundles pathName bundleName = Some graphicManifest /\
      Boolean_ (Graphic.singleInstance graphicManifest) = true /\
      _findOpenRegistrationByPathName pathName c = Some existing /\
      GraphicsInstance.socketId existing <> Socket.id socket in
  (unknownBundle \/ unknownGraphic \/ occupiedByOther <->
   snd (registerSocket bundles socket regRequest c) = Returned false) /\
  (snd (registerSocket bundles socket regRequest c) = Returned false ->
   registerSocket bundles socket regRequest c = (c, Returned false)).
Proof.
  intros bundleName pathName unknownBundle unknownGraphic occupiedByOther.
  assert (Hdeclined : unknownBundle \/ unknownGraphic \/ occupiedByOther ->
                      registerSocket bundles socket regRequest c = (c, Returned false)).
  { intros [Hb | [(bundle & Hb & Hg) | (g & existing & Hg & Hsi & He & Hother)]].
    - now apply registerSocket_unknownBundle.
    - now apply registerSocket_unknownGraphic.
    - rewrite (registerSocket_occupied _ _ _ _ g existing Hg Hsi He).
      apply String.eqb_neq in Hother. now rewrite Hother. }
  assert (Hcause : snd (registerSocket bundles socket regRequest c) = Returned false ->
                   unknownBundle \/ unknownGraphic \/ occupiedByOther).
  { intros Hreply.
    destruct (registerSocket_branches bundles regRequest c)
      as [Hb | [Hg | [(g & existing & Hg & Hsi & He) | (bundle & g & Hb & Hg & Hfree)]]].
    - now left.
    - destruct (bundles bundleName) as [bundle|] eqn:Hb; [|now left].
      right. left. exists bundle. auto.
    - right. right. exists g, existing. repeat split; trivial.
      rewrite (registerSocket_occupied _ _ _ _ g existing Hg Hsi He) in Hreply.
      simpl in Hreply. apply String.eqb_neq.
      destruct (String.eqb _ _); [discriminate | reflexivity].
    - rewrite (registerSocket_free _ _ _ _ bundle g Hb Hg Hfree) in Hreply.
      now apply openOrAddRegistration_reply in Hreply. }
  split.
  - split; [|exact Hcause]. intros H. now rewrite (Hdeclined H).
  - intros Hreply. apply Hdeclined, Hcause, Hreply.
Qed.

(** [A] holds the index graphic of [demo]; [B] asks for it and is declined,
    the state staying as it was. *)
Lemma registerSocket_declined_unchanged_witness :
  registerSocket (demoBundles (revision "abc")) socketB
    (demoRequest demoIndex (revision "abc")) occupiedByA
  = (occupiedByA, Returned false).
Proof.
  apply (proj2 (registerSocket_declined_unchanged
                  (demoBundles (revision "abc")) socketB
                  (demoRequest demoIndex (revision "abc")) occupiedByA)).
  reflexivity.
Defined.

(** ** Staleness without git metadata *)

Lemma forEachInstance_throws bundles l instance e :
  In instance l -> updateInstanceStatus bundles instance = Threw e ->
  snd (forEachInstance bundles l) = Threw TypeError_.
Proof.
  induction l as [|x t IH]; simpl; [tauto|].
  intros Hin Hthrow.
  destruct (updateInstanceStatus bundles x) as [x'|e'] eqn:Hx.
  - destruct Hin as [-> | Hin]; [congruence|].
    specialize (IH Hin Hthrow).
    destruct (forEachInstance bundles t) as [t' k]. exact IH.
  - now destruct e'.
Qed.

(** C9.  When neither the request nor the bundle carries git metadata,
    [calcBundleGitMismatch] does not return [false]: it reads [hash] of the
    absent [bundleGit] and throws.  So a registration that reaches the
    creation of an instance (known bundle and graphic, nothing stopping it at
    line 75, no instance yet for the socket) ends in that exception, with no
    acknowledgement and no instance created, and a rescan throws as soon as
    the array holds an instance without git metadata whose bundle is
    installed without any and declares the instance's path. *)
Theorem calcBundleGitMismatch_throws_without_git
  (bundle : Bundle.t) (regRequest : GraphicRegRequest.t) :
  Bundle.git bundle = None ->
  GraphicRegRequest.bundleGit regRequest = None ->
  calcBundleGitMismatch bundle regRequest = Threw TypeError_ /\
  (forall bundles socket c graphicManifest,
      bundles (GraphicRegRequest.bundleName regRequest) = Some bundle ->
      findGraphicManifest bundles (normalizedPathName regRequest)
                          (GraphicRegRequest.bundleName regRequest) = Some graphicManifest ->
      (Boolean_ (Graphic.singleInstance graphicManifest) = true ->
       _findOpenRegistrationByPathName (normalizedPathName regRequest) c = None) ->
      _findRegistrationBySocketId (Socket.id socket) c = None ->
      registerSocket bundles socket regRequest c = (c, Threw TypeError_)) /\
  (forall bundles c instance graphicManifest,
      In instance (instancesRep c) ->
      GraphicsInstance.asRegRequest instance = regRequest ->
      bundles (GraphicsInstance.bundleName instance) = Some bundle ->
      findGraphicManifest bundles (GraphicsInstance.pathName instance)
                          (GraphicsInstance.bundleName instance) = Some graphicManifest ->
      snd (_updateInstanceStatuses bundles c) = Threw TypeError_).
Proof.
  intros Hbundle Hrequest.
  assert (Hgit : calcBundleGitMismatch bundle regRequest = Threw TypeError_).
  { now rewrite calcBundleGitMismatch_table, Hbundle, Hrequest. }
  assert (Hcalc : calcMismatch bundle regRequest = Threw TypeError_).
  { unfold calcMismatch. now rewrite Hgit. }
  repeat split.
  - exact Hgit.
  - intros bundles socket c g Hb Hg Hfree Hnew.
    rewrite (registerSocket_free _ _ _ _ bundle g Hb Hg Hfree).
    unfold openOrAddRegistration. now rewrite Hnew, Hcalc.
  - intros bundles c instance g Hin Hreq Hb Hg.
    unfold _updateInstanceStatuses.
    pose proof (forEachInstance_throws bundles (instancesRep c) instance TypeError_ Hin) as H.
    destruct (forEachInstance bundles (instancesRep c)) as [l k]. simpl in *.
    apply H. unfold updateInstanceStatus. now rewrite Hb, Hg, Hreq, Hcalc.
Qed.

(** A client without git metadata registers the index graphic of [demo],
    installed without git metadata: the handler throws. *)
Lemma calcBundleGitMismatch_throws_without_git_witness :
  calcBundleGitMismatch (demoBundle None) (demoRequest demoIndex None) = Threw TypeError_ /\
  registerSocket (demoBundles None) socketA (demoRequest demoIndex None) initial
  = (initial, Threw TypeError_).
Proof.
  destruct (calcBundleGitMismatch_throws_without_git
              (demoBundle None) (demoRequest demoIndex None) eq_refl eq_refl)
    as (Hcalc & Hregister & _).
  split.
  - exact Hcalc.
  - apply (Hregister (demoBundles None) socketA initial (Graphic.mk demoIndex (Some true)));
      reflexivity.
Defined.

(** ** What [disconnect] does to the array *)

Lemma disconnect_instances socket c registration :
  _findRegistrationBySocketId (Socket.id socket) c = Some registration ->
  exists before after,
    instancesRep c = before ++ registration :: after /\
    find (bySocketId (Socket.id socket)) before = None /\
    instancesRep (disconnect socket c)
    = before ++ GraphicsInstance.set_open false registration :: after.
Proof.
  intros Hr. unfold disconnect. rewrite Hr.
  unfold _findRegistrationBySocketId in Hr.
  destruct (find_split _ _ _ Hr) as (before & after & Hl & Hb & Hp).
  exists before, after. repeat split; trivial.
  destruct (GraphicsInstance.singleInstance registration); simpl;
    rewrite Hl; now apply mutateFound_app.
Qed.

Lemma disconnect_missing socket c :
  _findRegistrationBySocketId (Socket.id socket) c = None -> disconnect socket c = c.
Proof.
  unfold disconnect. now intros ->.
Qed.

(** After the disconnect of a socket, an open instance belongs to another
    socket and was open before. *)
Lemma disconnect_open_instances socket c instance :
  uniqueSocketIds c ->
  In instance (instancesRep (disconnect socket c)) ->
  GraphicsInstance.open instance = true ->
  In instance (instancesRep c) /\ GraphicsInstance.socketId instance <> Socket.id socket.
Proof.
  intros Hc Hin Hopen.
  destruct (_findRegistrationBySocketId (Socket.id socket) c) as [r|] eqn:Hr.
  - destruct (disconnect_instances _ _ _ Hr) as (before & after & Hl & Hb & Hd).
    rewrite Hd in Hin. unfold uniqueSocketIds in Hc. rewrite Hl in *.
    assert (Hrid : GraphicsInstance.socketId r = Socket.id socket).
    { apply find_some in Hr as [_ Hr]. now apply bySocketId_true. }
    rewrite map_app in Hc. simpl in Hc. apply NoDup_remove_2 in Hc.
    rewrite <- map_app in Hc.
    assert (Hrest : In instance (before ++ after)).
    { apply in_app_or in Hin as [H | [<- | H]]; [apply in_or_app; auto | | apply in_or_app; auto].
      simpl in Hopen. discriminate. }
    split.
    + apply in_app_or in Hrest as [H | H]; apply in_or_app; simpl; auto.
    + intros Hid. apply Hc. rewrite Hrid, <- Hid. now apply in_map.
  - rewrite (disconnect_missing _ _ Hr) in Hin. split; [exact Hin|].
    intros Hid. apply find_bySocketId_none in Hr. apply Hr. rewrite <- Hid. now apply in_map.
Qed.

Lemma disconnect_length socket c :
  length (instancesRep (disconnect socket c)) = length (instancesRep c).
Proof.
  unfold disconnect.
  destruct (_findRegistrationBySocketId (Socket.id socket) c) as [r|]; [|reflexivity].
  destruct (GraphicsInstance.singleInstance r); simpl; apply mutateFound_length.
Qed.

(** ** Availability queries *)

(** C1, as the handler has it.  [graphic:queryAvailability] answers
    [false] exactly when the array holds an open instance recorded under the
    queried path, whatever the [singleInstance] flag of that instance, and
    [true] otherwise: it answers availability, not occupation.  In
    particular, once the socket that owns every open instance of the path
    has disconnected, the answer is [true] at once, while the closed instance
    is still in the array. *)
Theorem queryAvailability_false_iff_open (pathName : string) (c : Coordinator) :
  (queryAvailability pathName c = false <->
   exists instance,
     In instance (instancesRep c) /\
     GraphicsInstance.pathName instance = pathName /\
     GraphicsInstance.open instance = true) /\
  (forall socket,
      uniqueSocketIds c ->
      (forall instance,
          In instance (instancesRep c) ->
          GraphicsInstance.pathName instance = pathName ->
          GraphicsInstance.open instance = true ->
          GraphicsInstance.socketId instance = Socket.id socket) ->
      queryAvailability pathName (disconnect socket c) = true /\
      length (instancesRep (disconnect socket c)) = length (instancesRep c)).
Proof.
  split.
  - unfold queryAvailability, _findOpenRegistrationByPathName. split.
    + destruct (find (byOpenPathName pathName) (instancesRep c)) as [x|] eqn:Hx;
        [|discriminate].
      intros _. apply find_some in Hx as [Hin Hx].
      apply byOpenPathName_true in Hx. exists x. tauto.
    + intros (x & Hin & Hp & Ho).
      destruct (find (byOpenPathName pathName) (instancesRep c)) as [y|] eqn:Hy;
        [reflexivity|].
      apply (find_none _ _ Hy) in Hin.
      assert (byOpenPathName pathName x = true) by (apply byOpenPathName_true; auto).
      congruence.
  - intros socket Hc Howner. split; [|apply disconnect_length].
    unfold queryAvailability, _findOpenRegistrationByPathName.
    destruct (find _ _) as [x|] eqn:Hx; [|reflexivity].
    apply find_some in Hx as [Hin Hx]. apply byOpenPathName_true in Hx as [Hp Ho].
    destruct (disconnect_open_instances _ _ _ Hc Hin Ho) as [Hin' Hother].
    now specialize (Howner x Hin' Hp Ho).
Qed.

(** [A] holds the index graphic of [demo]: not available; [A] disconnects:
    available at once. *)
Lemma queryAvailability_false_iff_open_witness :
  queryAvailability demoIndex occupiedByA = false /\
  queryAvailability demoIndex (disconnect socketA occupiedByA) = true.
Proof.
  destruct (queryAvailability_false_iff_open demoIndex occupiedByA) as [Hiff Hafter].
  split.
  - apply Hiff. eexists. split; [left; reflexivity|]. split; reflexivity.
  - apply (Hafter socketA).
    + repeat constructor. simpl. tauto.
    + intros instance [<- | []] _ _. reflexivity.
Defined.

(** The claim as the specification words it fails: the array holds an open
    single-instance record for the path, and the answer is not [true]. *)
Lemma queryAvailability_occupied_answers_false :
  ~ (queryAvailability demoIndex occupiedByA = true <->
     exists instance,
       In instance (instancesRep occupiedByA) /\
       GraphicsInstance.pathName instance = demoIndex /\
       GraphicsInstance.open instance = true /\
       GraphicsInstance.singleInstance instance = true).
Proof.
  intros [_ H].
  assert (Hq : queryAvailability demoIndex occupiedByA = true).
  { apply H. eexists. split; [left; reflexivity|]. repeat split. }
  vm_compute in Hq. discriminate.
Qed.

(** ** The delayed removal *)

Lemma removalTimeout_instances socketId c :
  In socketId (pendingRemovals c) ->
  instancesRep (removalTimeout socketId c)
  = instancesRep (fst (_removeRegistration socketId c)).
Proof.
  intros Hin. unfold removalTimeout.
  assert (H : existsb (String.eqb socketId) (pendingRemovals c) = true).
  { apply existsb_exists. exists socketId. split; [exact Hin | apply String.eqb_refl]. }
  now rewrite H.
Qed.

(** C4, as the code has it.  The callback scheduled by [disconnect] removes
    the first instance whose socket id is the disconnected one, and nothing
    else; it never reads [open], so an instance that was opened again in the
    meantime is removed like a closed one.  When no instance has that socket
    id the callback changes nothing. *)
Theorem removalTimeout_removes_regardless_of_open (socketId : string) (c : Coordinator) :
  In socketId (pendingRemovals c) ->
  (forall registration,
      _findRegistrationBySocketId socketId c = Some registration ->
      exists before after,
        instancesRep c = before ++ registration :: after /\
        find (bySocketId socketId) before = None /\
        instancesRep (removalTimeout socketId c) = before ++ after) /\
  (_findRegistrationBySocketId socketId c = None ->
   instancesRep (removalTimeout socketId c) = instancesRep c).
Proof.
  intros Hpending. rewrite (removalTimeout_instances _ _ Hpending). split.
  - intros registration Hr.
    destruct (_removeRegistration_found _ _ _ Hr) as (before & after & Hl & Hb & ->).
    exists before, after. auto.
  - intros Hr. now rewrite (_removeRegistration_missing _ _ Hr).
Qed.

(** The instance that [A] opened again is open, and the pending timer
    removes it. *)
Lemma removalTimeout_removes_regardless_of_open_witness :
  In "A" (pendingRemovals reopenedByA) /\
  exists registration,
    _findRegistrationBySocketId "A" reopenedByA = Some registration /\
    GraphicsInstance.open registration = true /\
    exists before after,
      instancesRep reopenedByA = before ++ registration :: after /\
      find (bySocketId "A") before = None /\
      instancesRep (removalTimeout "A" reopenedByA) = before ++ after.
Proof.
  split; [left; reflexivity|].
  eexists. split; [reflexivity|]. split; [reflexivity|].
  apply (proj1 (removalTimeout_removes_regardless_of_open
                  "A" reopenedByA (or_introl eq_refl))).
  reflexivity.
Defined.

(** The claim as the specification words it fails: the instance of [A] is
    open when the timer of [A]'s earlier disconnect runs, and the timer
    removes it. *)
Lemma removalTimeout_removes_open_instance :
  (exists registration,
      In registration (instancesRep reopenedByA) /\
      GraphicsInstance.socketId registration = "A" /\
      GraphicsInstance.open registration = true) /\
  pendingRemovals reopenedByA = ["A"] /\
  instancesRep (step (demoBundles (revision "abc")) (timeout "A") reopenedByA) = [].
Proof.
  split; [|split].
  - eexists. split; [left; reflexivity|]. split; reflexivity.
  - reflexivity.
  - reflexivity.
Qed.

(** ** A socket that registers again *)



(** C10.  A socket that already has an instance in the array asks to register
    a path for which line 75 does not stop it.  The reply is [true], and the
    only change is that the socket's existing instance now has [open = true]:
    the array keeps its length, its order and its path names, the instance
    keeps its own [pathName], [bundleVersion], [potentiallyOutOfDate] and
    every other property, no event is emitted, no timer is set, and no
    instance is recorded for the requested path. *)
Theorem registerSocket_existing_socket_only_reopens
  (bundles : BundleManager) (socket : Socket.t) (regRequest : GraphicRegRequest.t)
  (c : Coordinator) (bundle : Bundle.t) (graphicManifest : Graphic.t)
  (registration : GraphicsInstance.t) :
  _findRegistrationBySocketId (Socket.id socket) c = Some registration ->
  bundles (GraphicRegRequest.bundleName regRequest) = Some bundle ->
  findGraphicManifest bundles (normalizedPathName regRequest)
                      (GraphicRegRequest.bundleName regRequest) = Some graphicManifest ->
  (Boolean_ (Graphic.singleInstance graphicManifest) = true ->
   _findOpenRegistrationByPathName (normalizedPathName regRequest) c = None) ->
  exists before after,
    instancesRep c = before ++ registration :: after /\
    find (bySocketId (Socket.id socket)) before = None /\
    registerSocket bundles socket regRequest c
    = (mkCoordinator
         (before ++
          GraphicsInstance.mk
            (GraphicsInstance.ipv4 registration)
            (GraphicsInstance.timestamp registration)
            (GraphicsInstance.bundleName registration)
            (GraphicsInstance.bundleVersion registration)
            (GraphicsInstance.bundleGit registration)
            (GraphicsInstance.pathName registration)
            (GraphicsInstance.singleInstance registration)
            (GraphicsInstance.socketId registration)
            true
            (GraphicsInstance.potentiallyOutOfDate registration)
          :: after)
         (appEmitted c) (pendingRemovals c),
       Returned true) /\
    (exists reopened,
        _findRegistrationBySocketId (Socket.id socket)
          (fst (registerSocket bundles socket regRequest c)) = Some reopened /\
        GraphicsInstance.open reopened = true /\
        GraphicsInstance.pathName reopened = GraphicsInstance.pathName registration /\
        GraphicsInstance.bundleVersion reopened = GraphicsInstance.bundleVersion registration /\
        GraphicsInstance.potentiallyOutOfDate reopened
        = GraphicsInstance.potentiallyOutOfDate registration) /\
    map GraphicsInstance.pathName (instancesRep (fst (registerSocket bundles socket regRequest c)))
    = map GraphicsInstance.pathName (instancesRep c).
Proof.
  intros Hr Hb Hg Hfree.
  rewrite (registerSocket_free _ _ _ _ bundle graphicManifest Hb Hg Hfree).
  unfold openOrAddRegistration. rewrite Hr. unfold _findRegistrationBySocketId in *.
  destruct (find_split _ _ _ Hr) as (before & after & Hl & Hbefore & Hp).
  assert (Hmutated :
    mutateFound (bySocketId (Socket.id socket)) (GraphicsInstance.set_open true)
                (instancesRep c)
    = before ++ GraphicsInstance.set_open true registration :: after).
  { rewrite Hl. now apply mutateFound_app. }
  exists before, after. cbn [fst instancesRep withInstances]. rewrite Hmutated.
  split; [exact Hl|]. split; [exact Hbefore|]. split; [reflexivity|]. split.
  - exists (GraphicsInstance.set_open true registration).
    rewrite (find_app_none _ _ _ Hbefore). cbn [find].
    assert (Hp' : bySocketId (Socket.id socket) (GraphicsInstance.set_open true registration)
                  = true) by exact Hp.
    rewrite Hp'. repeat split.
  - rewrite Hl, !map_app. reflexivity.
Qed.

(** [B] showed the info graphic of [demo] and its instance is closed.  [B]
    asks for the index graphic: accepted; the instance is open again, still
    recorded under the info path, and no instance of the index graphic is
    open. *)
Lemma registerSocket_existing_socket_only_reopens_witness :
  map GraphicsInstance.open (instancesRep infoClosedByB) = [false] /\
  snd (registerSocket (demoBundles (revision "abc")) socketB
         (demoRequest demoIndex (revision "abc")) infoClosedByB) = Returned true /\
  map GraphicsInstance.open
      (instancesRep (fst (registerSocket (demoBundles (revision "abc")) socketB
                            (demoRequest demoIndex (revision "abc")) infoClosedByB)))
  = [true] /\
  map GraphicsInstance.pathName
      (instancesRep (fst (registerSocket (demoBundles (revision "abc")) socketB
                            (demoRequest demoIndex (revision "abc")) infoClosedByB)))
  = [demoInfo] /\
  openCount demoIndex
    (fst (registerSocket (demoBundles (revision "abc")) socketB
            (demoRequest demoIndex (revision "abc")) infoClosedByB)) = 0.
Proof.
  destruct (registerSocket_existing_socket_only_reopens
              (demoBundles (revision "abc")) socketB (demoRequest demoIndex (revision "abc"))
              infoClosedByB (demoBundle (revision "abc")) (Graphic.mk demoIndex (Some true))
              (GraphicsInstance.set_open false
                 (newRegistration socketB (demoRequest demoInfo (revision "abc")) false false))
              eq_refl eq_refl eq_refl (fun _ => eq_refl))
    as (before & after & Hl & Hbefore & Hreply & _ & Hpaths).
  destruct before as [|x before]; [|destruct before; discriminate Hl].
  injection Hl as <-.
  split; [reflexivity|]. rewrite Hreply. repeat split.
Defined.



Lemma instancesRep_openOrAdd_new bundle graphicManifest socket regRequest path c outOfDate :
  _findRegistrationBySocketId (Socket.id socket) c = None ->
  calcMismatch bundle regRequest = Returned outOfDate ->
  snd (openOrAddRegistration bundle graphicManifest socket regRequest path c) = Returned true /\
  instancesRep (fst (openOrAddRegistration bundle graphicManifest socket regRequest path c))
  = instancesRep c ++
    [newRegistration socket regRequest
       (Boolean_ (Graphic.singleInstance graphicManifest)) outOfDate].
Proof.
  intros Hnew Hcalc. unfold openOrAddRegistration. rewrite Hnew, Hcalc.
  destruct (Boolean_ (Graphic.singleInstance graphicManifest)); split; reflexivity.
Qed.






(** The same with an unchanged manifest: [B] registers the index graphic of
    [demo] through its directory, [A] then registers it by its declared path
    (accepted, the instance of [B] being recorded under the directory), and
    [B] sends its request again: declined, line 75 finding the instance of
    [A]. *)
Lemma registerSocket_twice_declined_after_other_registration :
  let bundles := demoBundles (revision "abc") in
  let first := registerSocket bundles socketB (demoRequest demoDirectory (revision "abc"))
                 initial in
  let other := registerSocket bundles socketA (demoRequest demoIndex (revision "abc"))
                 (fst first) in
  let second := registerSocket bundles socketB (demoRequest demoDirectory (revision "abc"))
                  (fst other) in
  snd first = Returned true /\
  snd other = Returned true /\
  second = (fst other, Returned false).
Proof.
  cbv zeta. repeat split.
Qed.

(** ** Registration during the grace window *)






(** ** Counting the open instances of a path *)

Lemma filter_mutateFound_off {A : Type} (q p : A -> bool) (f : A -> A) (l : list A) :
  (forall x, q (f x) = false) ->
  length (filter q (mutateFound p f l)) <= length (filter q l).
Proof.
  intros Hoff. induction l as [|x t IH]; simpl; [lia|].
  destruct (p x); simpl.
  - rewrite Hoff. destruct (q x); simpl; lia.
  - destruct (q x); simpl; lia.
Qed.

Lemma filter_mutateFound_one {A : Type} (q p : A -> bool) (f : A -> A) (l : list A) :
  length (filter q (mutateFound p f l)) <= S (length (filter q l)).
Proof.
  induction l as [|x t IH]; simpl; [lia|].
  destruct (p x); simpl.
  - destruct (q (f x)), (q x); simpl; lia.
  - destruct (q x); simpl; lia.
Qed.

Lemma filter_at_most_one {A : Type} (q : A -> bool) (l : list A) (x y : A) :
  length (filter q l) <= 1 ->
  In x l -> In y l -> q x = true -> q y = true -> x = y.
Proof.
  induction l as [|z t IH]; simpl; [tauto|].
  intros Hle Hx Hy Hqx Hqy.
  assert (Hnone : forall w, In w t -> q w = true -> q z = true -> False).
  { intros w Hw Hqw Hqz. rewrite Hqz in Hle. simpl in Hle.
    assert (Hin : In w (filter q t)) by (apply filter_In; auto).
    destruct (filter q t); [contradiction | simpl in Hle; lia]. }
  destruct Hx as [-> | Hx], Hy as [-> | Hy]; trivial.
  - exfalso. eauto.
  - exfalso. eauto.
  - apply IH; trivial. destruct (q z); simpl in Hle; lia.
Qed.

Lemma openCount_disconnect pathName socket c :
  openCount pathName (disconnect socket c) <= openCount pathName c.
Proof.
  unfold openCount, disconnect.
  destruct (_findRegistrationBySocketId (Socket.id socket) c) as [r|]; [|lia].
  assert (Hoff : forall x, byOpenPathName pathName (GraphicsInstance.set_open false x) = false).
  { intros x. unfold byOpenPathName. simpl. apply andb_false_r. }
  destruct (GraphicsInstance.singleInstance r); simpl;
    now apply filter_mutateFound_off.
Qed.

Lemma openCount_removalTimeout pathName socketId c :
  openCount pathName (removalTimeout socketId c) <= openCount pathName c.
Proof.
  unfold openCount, removalTimeout.
  destruct (existsb _ _); [|lia]. simpl.
  destruct (_findRegistrationBySocketId socketId c) as [r|] eqn:Hr.
  - destruct (_removeRegistration_found _ _ _ Hr) as (before & after & Hl & _ & ->).
    simpl. rewrite Hl, !filter_app, !length_app. simpl.
    destruct (byOpenPathName pathName r); simpl; lia.
  - rewrite (_removeRegistration_missing _ _ Hr). simpl. lia.
Qed.

Lemma openCount_openOrAdd bundle graphicManifest socket regRequest path c :
  openCount (GraphicRegRequest.pathName regRequest) c = 0 ->
  openCount (GraphicRegRequest.pathName regRequest)
    (fst (openOrAddRegistration bundle graphicManifest socket regRequest path c)) <= 1.
Proof.
  intros Hzero. unfold openOrAddRegistration.
  destruct (_findRegistrationBySocketId (Socket.id socket) c) as [r|] eqn:Hr.
  - unfold openCount in *. simpl.
    pose proof (filter_mutateFound_one
                  (byOpenPathName (GraphicRegRequest.pathName regRequest))
                  (bySocketId (Socket.id socket)) (GraphicsInstance.set_open true)
                  (instancesRep c)) as Hone.
    lia.
  - destruct (calcMismatch bundle regRequest) as [outOfDate|]; simpl; [|lia].
    assert (Hadd : openCount (GraphicRegRequest.pathName regRequest)
              (_addRegistration
                 (newRegistration socket regRequest
                    (Boolean_ (Graphic.singleInstance graphicManifest)) outOfDate) c) <= 1).
    { unfold openCount in *. simpl. rewrite filter_app, length_app, Hzero. simpl.
      destruct (byOpenPathName _ _); simpl; lia. }
    destruct (Boolean_ (Graphic.singleInstance graphicManifest)); exact Hadd.
Qed.

(** ** Single-instance graphics registered under their declared path *)

Section DeclaredPath.
Variable bundles : BundleManager.
Variables bundleName pathName : string.
Variable bundle : Bundle.t.
Variable graphicManifest : Graphic.t.
Hypothesis Hbundle : bundles bundleName = Some bundle.
Hypothesis Hgraphic : findGraphicManifest bundles pathName bundleName = Some graphicManifest.
Hypothesis Hsingle : Boolean_ (Graphic.singleInstance graphicManifest) = true.
Hypothesis Hdeclared :
  endsWith pathName (String.append "/" (String.append bundleName "/graphics/")) = false.

Lemma normalizedPathName_declared regRequest :
  GraphicRegRequest.bundleName regRequest = bundleName ->
  GraphicRegRequest.pathName regRequest = pathName ->
  normalizedPathName regRequest = pathName.
Proof.
  unfold normalizedPathName. intros -> ->. now rewrite Hdeclared.
Qed.

Lemma step_openCount e c :
  concernsPath bundleName pathName e ->
  openCount pathName c <= 1 -> openCount pathName (step bundles e c) <= 1.
Proof.
  destruct e as [socket regRequest| |socket|socketId| |]; simpl; intros He Hc;
    try contradiction; trivial.
  - destruct He as [Hname Hpath].
    pose proof (normalizedPathName_declared _ Hname Hpath) as Hnorm.
    destruct (_findOpenRegistrationByPathName pathName c) as [existing|] eqn:Hopen.
    + rewrite (registerSocket_occupied bundles socket regRequest c graphicManifest existing);
        rewrite ?Hname, ?Hnorm; trivial.
    + rewrite (registerSocket_free bundles socket regRequest c bundle graphicManifest);
        rewrite ?Hname, ?Hnorm; trivial.
      rewrite <- Hpath. apply openCount_openOrAdd. rewrite Hpath.
      now apply openCount_zero.
  - pose proof (openCount_disconnect pathName socket c). lia.
  - pose proof (openCount_removalTimeout pathName socketId c). lia.
Qed.

(** The exclusivity invariant, for a single-instance graphic that every
    client registers under its declared path (a path that the handler does
    not extend with [index.html]): whatever registrations, queries,
    disconnects and timers follow one another, at most one instance recorded
    under the path is open, and while one is open a registration for the path
    from any other socket is declined and changes nothing. *)
Theorem at_most_one_open_under_declared_path (events : list Event) (c : Coordinator) :
  Forall (concernsPath bundleName pathName) events ->
  openCount pathName c <= 1 ->
  openCount pathName (runWith bundles events c) <= 1 /\
  (forall owner socket regRequest,
      In owner (instancesRep (runWith bundles events c)) ->
      GraphicsInstance.pathName owner = pathName ->
      GraphicsInstance.open owner = true ->
      GraphicsInstance.socketId owner <> Socket.id socket ->
      GraphicRegRequest.bundleName regRequest = bundleName ->
      GraphicRegRequest.pathName regRequest = pathName ->
      registerSocket bundles socket regRequest (runWith bundles events c)
      = (runWith bundles events c, Returned false)).
Proof.
  intros Hevents Hc.
  assert (Hcount : openCount pathName (runWith bundles events c) <= 1).
  { unfold runWith. revert c Hc.
    induction Hevents as [|e rest He _ IH]; simpl; intros c Hc; [exact Hc|].
    apply IH. now apply step_openCount. }
  split; [exact Hcount|].
  intros owner socket regRequest Hin Hpath Hopen Hother Hname Hreq.
  pose proof (normalizedPathName_declared _ Hname Hreq) as Hnorm.
  destruct (_findOpenRegistrationByPathName pathName (runWith bundles events c))
    as [existing|] eqn:He.
  - rewrite (registerSocket_occupied bundles socket regRequest _ graphicManifest existing);
      rewrite ?Hname, ?Hnorm; trivial.
    apply find_some in He as [Hin' He].
    assert (Hsame : existing = owner).
    { apply (filter_at_most_one (byOpenPathName pathName)
               (instancesRep (runWith bundles events c))); trivial.
      apply byOpenPathName_true. auto. }
    subst existing. apply String.eqb_neq in Hother. now rewrite Hother.
  - apply (find_none _ _ He) in Hin.
    assert (byOpenPathName pathName owner = true) by (apply byOpenPathName_true; auto).
    congruence.
Qed.

End DeclaredPath.

(** [A] and [B] both ask for the index graphic of [demo] by its declared
    path: [B] is declined and one instance is open. *)
Lemma at_most_one_open_under_declared_path_witness :
  openCount demoIndex
    (runWith (demoBundles (revision "abc"))
       [graphic_registerSocket socketA (demoRequest demoIndex (revision "abc"));
        graphic_registerSocket socketB (demoRequest demoIndex (revision "abc"))]
       initial) <= 1.
Proof.
  apply (at_most_one_open_under_declared_path
           (demoBundles (revision "abc")) "demo" demoIndex
           (demoBundle (revision "abc")) (Graphic.mk demoIndex (Some true))
           eq_refl eq_refl eq_refl eq_refl).
  - repeat constructor.
  - unfold openCount. simpl. lia.
Defined.

(** ** Single-instance graphics registered under their directory *)

(** C2 at a directory path.  The handler looks the graphic up, and looks for
    an open instance, under [/bundles/demo/graphics/index.html], but the
    instance it pushes is recorded under the path of the request,
    [/bundles/demo/graphics/].  So the check of line 75 never finds the
    instance of [A]: [B] is accepted as well, and two instances of the
    single-instance graphic are open. *)
Theorem directory_path_registered_twice :
  let bundles := demoBundles (revision "abc") in
  let regRequest := demoRequest demoDirectory (revision "abc") in
  let first := registerSocket bundles socketA regRequest initial in
  let second := registerSocket bundles socketB regRequest (fst first) in
  normalizedPathName regRequest = demoIndex /\
  findGraphicManifest bundles demoIndex "demo" = Some (Graphic.mk demoIndex (Some true)) /\
  snd first = Returned true /\
  snd second = Returned true /\
  map GraphicsInstance.socketId (instancesRep (fst second)) = ["A"; "B"] /\
  map GraphicsInstance.pathName (instancesRep (fst second)) = [demoDirectory; demoDirectory] /\
  openCount demoDirectory (fst second) = 2 /\
  appEmitted (fst second) = [graphicOccupied demoIndex; graphicOccupied demoIndex].
Proof.
  cbv zeta. repeat split.
Qed.

(** ** The rescan after a bundle change *)

Lemma calcMismatch_staleAgainst bundle instance :
  truthy (GraphicsInstance.bundleGit instance) || truthy (Bundle.git bundle) = true ->
  calcMismatch bundle (GraphicsInstance.asRegRequest instance)
  = Returned (staleAgainst bundle instance).
Proof.
  unfold calcMismatch, staleAgainst, calcBundleVersionMismatch, revisionDiffers.
  rewrite calcBundleGitMismatch_table. simpl.
  destruct (GraphicsInstance.bundleGit instance) as [capturedGit|],
           (Bundle.git bundle) as [currentGit|]; simpl; try discriminate; intros _; trivial.
  rewrite (String.eqb_sym (Bundle.version bundle)).
  now destruct (negb (String.eqb (GitData.hash capturedGit) (GitData.hash currentGit))).
Qed.

Lemma forEachInstance_nth_error bundles l l' n instance :
  forEachInstance bundles l = (l', Returned tt) ->
  nth_error l n = Some instance ->
  exists instance',
    nth_error l' n = Some instance' /\
    updateInstanceStatus bundles instance = Returned instance'.
Proof.
  revert l' n. induction l as [|x t IH]; simpl; intros l' n Hrun Hn.
  - destruct n; discriminate.
  - destruct (updateInstanceStatus bundles x) as [x'|e] eqn:Hx; [|discriminate].
    destruct (forEachInstance bundles t) as [t' k] eqn:Ht.
    injection Hrun as <- ->.
    destruct n as [|n]; simpl in *.
    + injection Hn as <-. eauto.
    + now apply IH.
Qed.

Lemma forEachInstance_returns bundles l :
  (forall instance bundle,
      In instance l ->
      bundles (GraphicsInstance.bundleName instance) = Some bundle ->
      truthy (GraphicsInstance.bundleGit instance) || truthy (Bundle.git bundle) = true) ->
  snd (forEachInstance bundles l) = Returned tt.
Proof.
  induction l as [|x t IH]; simpl; intros Hgit; [reflexivity|].
  assert (Hx : exists x', updateInstanceStatus bundles x = Returned x').
  { unfold updateInstanceStatus.
    destruct (bundles (GraphicsInstance.bundleName x)) as [bundle|] eqn:Hb; [|eauto].
    destruct (findGraphicManifest _ _ _); [|eauto].
    rewrite calcMismatch_staleAgainst by (apply Hgit; auto). eauto. }
  destruct Hx as [x' ->].
  specialize (IH (fun instance bundle Hin => Hgit instance bundle (or_intror Hin))).
  now destruct (forEachInstance bundles t).
Qed.

(** The rescan on the instances it can resolve.  When no instance lacks git
    metadata together with its bundle, the rescan returns, and an instance
    whose bundle is installed and declares a graphic at the instance's
    recorded path gets [singleInstance] from that graphic's manifest and
    [potentiallyOutOfDate] from the comparison of its captured version and
    revision with the bundle's current ones; its other properties, and every
    instance that cannot be resolved, stay as they were. *)
Theorem _updateInstanceStatuses_recomputes
  (bundles : BundleManager) (c : Coordinator) (n : nat) (instance : GraphicsInstance.t) :
  (forall other bundle,
      In other (instancesRep c) ->
      bundles (GraphicsInstance.bundleName other) = Some bundle ->
      truthy (GraphicsInstance.bundleGit other) || truthy (Bundle.git bundle) = true) ->
  nth_error (instancesRep c) n = Some instance ->
  snd (_updateInstanceStatuses bundles c) = Returned tt /\
  exists instance',
    nth_error (instancesRep (fst (_updateInstanceStatuses bundles c))) n = Some instance' /\
    (forall bundle graphicManifest,
        bundles (GraphicsInstance.bundleName instance) = Some bundle ->
        findGraphicManifest bundles (GraphicsInstance.pathName instance)
                            (GraphicsInstance.bundleName instance) = Some graphicManifest ->
        instance' =
        GraphicsInstance.set_singleInstance
          (Boolean_ (Graphic.singleInstance graphicManifest))
          (GraphicsInstance.set_potentiallyOutOfDate (staleAgainst bundle instance) instance)) /\
    (findGraphicManifest bundles (GraphicsInstance.pathName instance)
                         (GraphicsInstance.bundleName instance) = None ->
     instance' = instance).
Proof.
  intros Hgit Hn. unfold _updateInstanceStatuses.
  pose proof (forEachInstance_returns bundles (instancesRep c) Hgit) as Hret.
  destruct (forEachInstance bundles (instancesRep c)) as [l' k] eqn:Hrun.
  simpl in *. subst k. split; [reflexivity|].
  destruct (forEachInstance_nth_error _ _ _ _ _ Hrun Hn) as (instance' & Hn' & Hupdate).
  exists instance'. split; [exact Hn'|]. unfold updateInstanceStatus in Hupdate. split.
  - intros bundle g Hb Hg. rewrite Hb, Hg in Hupdate.
    rewrite calcMismatch_staleAgainst in Hupdate.
    + now injection Hupdate as <-.
    + apply (Hgit instance bundle); trivial. eapply nth_error_In, Hn.
  - intros Hg. rewrite Hg in Hupdate.
    destruct (bundles (GraphicsInstance.bundleName instance)); now injection Hupdate as <-.
Qed.

(** [A] registered the index graphic of [demo] at revision [abc]; the bundle
    moves to [def]: the instance becomes stale. *)
Lemma _updateInstanceStatuses_recomputes_witness :
  map GraphicsInstance.potentiallyOutOfDate (instancesRep occupiedByA) = [false] /\
  snd (_updateInstanceStatuses (demoBundles (revision "def")) occupiedByA) = Returned tt /\
  map GraphicsInstance.potentiallyOutOfDate
      (instancesRep (fst (_updateInstanceStatuses (demoBundles (revision "def")) occupiedByA)))
  = [true].
Proof.
  split; [reflexivity|].
  destruct (_updateInstanceStatuses_recomputes
              (demoBundles (revision "def")) occupiedByA 0
              (newRegistration socketA (demoRequest demoIndex (revision "abc")) true false))
    as (Hret & instance' & Hn & _).
  - intros other bundle [<- | []] _. reflexivity.
  - reflexivity.
  - split; [exact Hret | reflexivity].
Defined.

(** C6 at a directory path.  [A] registers the single-instance graphic of
    [demo] through [/bundles/demo/graphics/], at revision [abc]; the instance
    is recorded under that path, not stale.  The bundle moves to revision
    [def] and the rescan runs: it looks the manifest up under the recorded
    path, finds none, and leaves the instance as it was, not stale, although
    its captured revision differs from the bundle's. *)
Theorem directory_path_never_rescanned :
  let regRequest := demoRequest demoDirectory (revision "abc") in
  let registered := registerSocket (demoBundles (revision "abc")) socketA regRequest initial in
  let rescanned := _updateInstanceStatuses (demoBundles (revision "def")) (fst registered) in
  snd registered = Returned true /\
  map GraphicsInstance.pathName (instancesRep (fst registered)) = [demoDirectory] /\
  map GraphicsInstance.open (instancesRep (fst registered)) = [true] /\
  findGraphicManifest (demoBundles (revision "def")) demoDirectory "demo" = None /\
  snd rescanned = Returned tt /\
  instancesRep (fst rescanned) = instancesRep (fst registered) /\
  map GraphicsInstance.potentiallyOutOfDate (instancesRep (fst rescanned)) = [false] /\
  map (staleAgainst (demoBundle (revision "def"))) (instancesRep (fst rescanned)) = [true].
Proof.
  cbv zeta. repeat split.
Qed.

(** The bundle then loses its git metadata.  The rescan throws at the instance
    of [A], which has none either, and never reaches the instance of [B]: it
    stays not stale although its captured revision differs from the bundle's
    (now absent) one. *)
Lemma rescan_stops_at_instance_without_git :
  let rescanned := _updateInstanceStatuses (demoBundles None) infoByA_indexByB in
  snd rescanned = Threw TypeError_ /\
  instancesRep (fst rescanned) = instancesRep infoByA_indexByB /\
  map GraphicsInstance.potentiallyOutOfDate (instancesRep (fst rescanned)) = [true; false] /\
  map (staleAgainst (demoBundle None)) (instancesRep (fst rescanned)) = [false; true].
Proof.
  cbv zeta. repeat split.
Qed.

(** ** What the rescan leaves alone *)

Lemma updateInstanceStatus_again bundles instance instance' :
  updateInstanceStatus bundles instance = Returned instance' ->
  updateInstanceStatus bundles instance' = Returned instance'.
Proof.
  intros Hupdate.
  destruct (updateInstanceStatus_keeps _ _ _ Hupdate) as (_ & Hpath & _ & Hname & Hversion & Hgit).
  assert (Hreq : GraphicsInstance.asRegRequest instance'
                 = GraphicRegRequest.mk (GraphicsInstance.timestamp instance')
                     (GraphicsInstance.pathName instance) (GraphicsInstance.bundleName instance)
                     (GraphicsInstance.bundleVersion instance) (GraphicsInstance.bundleGit instance)).
  { unfold GraphicsInstance.asRegRequest. now rewrite Hpath, Hname, Hversion, Hgit. }
  unfold updateInstanceStatus in *. rewrite Hname, Hpath.
  destruct (bundles (GraphicsInstance.bundleName instance)) as [bundle|]; [|reflexivity].
  destruct (findGraphicManifest _ _ _) as [g|]; [|reflexivity].
  assert (Hcalc : calcMismatch bundle (GraphicsInstance.asRegRequest instance')
                  = calcMismatch bundle (GraphicsInstance.asRegRequest instance)).
  { rewrite Hreq. unfold calcMismatch, calcBundleVersionMismatch.
    now rewrite !calcBundleGitMismatch_table. }
  rewrite Hcalc.
  destruct (calcMismatch bundle (GraphicsInstance.asRegRequest instance)) as [outOfDate|];
    [|discriminate].
  injection Hupdate as <-. reflexivity.
Qed.

Lemma forEachInstance_again bundles l :
  forEachInstance bundles (fst (forEachInstance bundles l)) = forEachInstance bundles l.
Proof.
  induction l as [|x t IH]; simpl; [reflexivity|].
  destruct (updateInstanceStatus bundles x) as [x'|e] eqn:Hx.
  - destruct (forEachInstance bundles t) as [t' k] eqn:Ht. simpl in *.
    now rewrite (updateInstanceStatus_again _ _ _ Hx), IH.
  - simpl. now rewrite Hx.
Qed.

(** A rescan repeated under the same bundle manager changes nothing more and
    ends the same way, whether the first one returned or threw. *)
Theorem _updateInstanceStatuses_idempotent (bundles : BundleManager) (c : Coordinator) :
  _updateInstanceStatuses bundles (fst (_updateInstanceStatuses bundles c))
  = _updateInstanceStatuses bundles c.
Proof.
  unfold _updateInstanceStatuses.
  pose proof (forEachInstance_again bundles (instancesRep c)) as Hagain.
  destruct (forEachInstance bundles (instancesRep c)) as [l k]. simpl in *.
  now rewrite Hagain.
Qed.

Lemma filter_length_map_eq {A B : Type} (g : A -> B) (q : A -> bool) (l l' : list A) :
  (forall x x', g x' = g x -> q x' = q x) ->
  map g l' = map g l ->
  length (filter q l') = length (filter q l).
Proof.
  intros Hq. revert l'. induction l as [|x t IH]; intros [|x' t'] Heq;
    try discriminate; [reflexivity|].
  cbn [map] in Heq. injection Heq as Hx Ht. cbn [filter].
  rewrite (Hq _ _ Hx). destruct (q x); cbn [length]; now rewrite (IH t').
Qed.

Lemma _updateInstanceStatuses_keeps bundles c :
  map (fun instance =>
         GraphicsInstance.set_singleInstance false
           (GraphicsInstance.set_potentiallyOutOfDate false instance))
      (instancesRep (fst (_updateInstanceStatuses bundles c)))
  = map (fun instance =>
           GraphicsInstance.set_singleInstance false
             (GraphicsInstance.set_potentiallyOutOfDate false instance)) (instancesRep c) /\
  appEmitted (fst (_updateInstanceStatuses bundles c)) = appEmitted c /\
  pendingRemovals (fst (_updateInstanceStatuses bundles c)) = pendingRemovals c.
Proof.
  unfold _updateInstanceStatuses.
  assert (Hmap : forall l,
    map (fun instance =>
           GraphicsInstance.set_singleInstance false
             (GraphicsInstance.set_potentiallyOutOfDate false instance))
        (fst (forEachInstance bundles l))
    = map (fun instance =>
             GraphicsInstance.set_singleInstance false
               (GraphicsInstance.set_potentiallyOutOfDate false instance)) l).
  { induction l as [|x t IH]; simpl; [reflexivity|].
    destruct (updateInstanceStatus bundles x) as [x'|e] eqn:Hx; [|reflexivity].
    destruct (forEachInstance bundles t) as [t' k]. simpl in *. rewrite IH. f_equal.
    unfold updateInstanceStatus in Hx.
    destruct (bundles _); [|now injection Hx as <-].
    destruct (findGraphicManifest _ _ _); [|now injection Hx as <-].
    destruct (calcMismatch _ _); [|discriminate]. now injection Hx as <-. }
  specialize (Hmap (instancesRep c)).
  destruct (forEachInstance bundles (instancesRep c)) as [l k]. simpl in *. auto.
Qed.

(** The rescan changes [potentiallyOutOfDate] and [singleInstance] and
    nothing else: the instances keep their number, order, sockets, paths and
    [open] flags, no event is emitted and no timer is set.  So the answer of
    [graphic:queryAvailability] for any path is the same before and after a
    rescan, also after one that threw. *)
Theorem _updateInstanceStatuses_frame (bundles : BundleManager) (c : Coordinator) :
  let c' := fst (_updateInstanceStatuses bundles c) in
  map (fun instance =>
         GraphicsInstance.set_singleInstance false
           (GraphicsInstance.set_potentiallyOutOfDate false instance)) (instancesRep c')
  = map (fun instance =>
           GraphicsInstance.set_singleInstance false
             (GraphicsInstance.set_potentiallyOutOfDate false instance)) (instancesRep c) /\
  appEmitted c' = appEmitted c /\
  pendingRemovals c' = pendingRemovals c /\
  (forall pathName,
      queryAvailability pathName c' = queryAvailability pathName c /\
      openCount pathName c' = openCount pathName c).
Proof.
  cbv zeta. destruct (_updateInstanceStatuses_keeps bundles c) as (Hmap & Hemitted & Hpending).
  assert (Hcount : forall path,
    openCount path (fst (_updateInstanceStatuses bundles c)) = openCount path c).
  { intros path. unfold openCount.
    refine (filter_length_map_eq _ _ _ _ _ Hmap).
    intros x x' Hx. unfold byOpenPathName.
    apply (f_equal GraphicsInstance.pathName) in Hx as Hp.
    apply (f_equal GraphicsInstance.open) in Hx as Ho. simpl in Hp, Ho.
    now rewrite Hp, Ho. }
  repeat split; trivial.
  unfold queryAvailability.
  pose proof (openCount_zero pathName (fst (_updateInstanceStatuses bundles c))) as Hz'.
  pose proof (openCount_zero pathName c) as Hz.
  rewrite Hcount in Hz'.
  destruct (_findOpenRegistrationByPathName pathName (fst (_updateInstanceStatuses bundles c)))
    as [x|],
    (_findOpenRegistrationByPathName pathName c) as [y|]; trivial.
  - pose proof (proj1 Hz' (proj2 Hz eq_refl)). discriminate.
  - pose proof (proj1 Hz (proj2 Hz' eq_refl)). discriminate.
Qed.

(** ** Handlers and the instances of other sockets *)

Lemma filter_mutateFound_hidden {A : Type} (q p : A -> bool) (f : A -> A) (l : list A) :
  (forall x, p x = true -> q x = false /\ q (f x) = false) ->
  filter q (mutateFound p f l) = filter q l.
Proof.
  intros Hhidden. induction l as [|x t IH]; simpl; [reflexivity|].
  destruct (p x) eqn:Hp; simpl.
  - destruct (Hhidden x Hp) as [-> ->]. reflexivity.
  - now rewrite IH.
Qed.

Lemma instancesOfOthers_set_open socketId b c :
  filter (fun instance => negb (bySocketId socketId instance))
         (mutateFound (bySocketId socketId) (GraphicsInstance.set_open b) (instancesRep c))
  = instancesOfOthers socketId c.
Proof.
  apply filter_mutateFound_hidden. intros x Hx. unfold bySocketId in *. simpl.
  now rewrite Hx.
Qed.

Lemma instancesOfOthers_openOrAdd bundle graphicManifest socket regRequest path c :
  instancesOfOthers (Socket.id socket)
    (fst (openOrAddRegistration bundle graphicManifest socket regRequest path c))
  = instancesOfOthers (Socket.id socket) c.
Proof.
  unfold openOrAddRegistration.
  destruct (_findRegistrationBySocketId (Socket.id socket) c) as [r|]; simpl.
  - apply instancesOfOthers_set_open.
  - destruct (calcMismatch bundle regRequest) as [outOfDate|]; [|reflexivity].
    assert (Hpushed :
      instancesOfOthers (Socket.id socket)
        (_addRegistration
           (newRegistration socket regRequest
              (Boolean_ (Graphic.singleInstance graphicManifest)) outOfDate) c)
      = instancesOfOthers (Socket.id socket) c).
    { unfold instancesOfOthers. simpl. rewrite filter_app. simpl.
      unfold bySocketId at 2. simpl. rewrite String.eqb_refl. simpl. apply app_nil_r. }
    destruct (Boolean_ (Graphic.singleInstance graphicManifest)); exact Hpushed.
Qed.

(** Whatever a socket's registration, disconnect or removal timer does, the
    instances of all other sockets stay in the array, unchanged and in the
    same order. *)
Theorem step_leaves_other_sockets
  (bundles : BundleManager) (e : Event) (c : Coordinator) (socketId : string) :
  eventSocket e = Some socketId ->
  instancesOfOthers socketId (step bundles e c) = instancesOfOthers socketId c.
Proof.
  destruct e as [socket regRequest| |socket|s| |]; simpl; intros [= <-].
  - destruct (registerSocket_branches bundles regRequest c)
      as [Hb | [Hg | [(g & existing & Hg & Hsi & He) | (bundle & g & Hb & Hg & Hfree)]]].
    + now rewrite (registerSocket_unknownBundle _ socket _ _ Hb).
    + now rewrite (registerSocket_unknownGraphic _ socket _ _ Hg).
    + now rewrite (registerSocket_occupied _ socket _ _ g existing Hg Hsi He).
    + rewrite (registerSocket_free _ socket _ _ bundle g Hb Hg Hfree).
      apply instancesOfOthers_openOrAdd.
  - unfold disconnect.
    destruct (_findRegistrationBySocketId (Socket.id socket) c) as [r|]; [|reflexivity].
    destruct (GraphicsInstance.singleInstance r); apply instancesOfOthers_set_open.
  - unfold removalTimeout. destruct (existsb _ _); [|reflexivity].
    destruct (_findRegistrationBySocketId s c) as [r|] eqn:Hr.
    + destruct (_removeRegistration_found _ _ _ Hr) as (before & after & Hl & _ & ->).
      unfold instancesOfOthers. simpl. rewrite Hl, !filter_app. simpl.
      apply find_some in Hr as [_ Hr]. now rewrite Hr.
    + now rewrite (_removeRegistration_missing _ _ Hr).
Qed.

(** [A] disconnects, and its timer runs, while [B] shows the info graphic:
    the instance of [B] is untouched. *)
Lemma step_leaves_other_sockets_witness :
  instancesOfOthers "A"
    (step (demoBundles (revision "abc")) (timeout "A") (disconnect socketA indexByA_infoByB))
  = instancesOfOthers "A" (disconnect socketA indexByA_infoByB) /\
  instancesOfOthers "A" (disconnect socketA indexByA_infoByB)
  = [newRegistration socketB (demoRequest demoInfo (revision "abc")) false false].
Proof.
  split.
  - apply (step_leaves_other_sockets (demoBundles (revision "abc")) (timeout "A")).
    reflexivity.
  - reflexivity.
Defined.

(** ** Closed instances and their timers *)

Lemma In_clearTimeout_other socketId other pending :
  In other pending -> other <> socketId -> In other (clearTimeout socketId pending).
Proof.
  induction pending as [|s t IH]; simpl; [tauto|].
  intros [-> | Hin] Hother.
  - apply String.eqb_neq in Hother. rewrite Hother. now left.
  - destruct (String.eqb s socketId); [exact Hin | right; auto].
Qed.

Lemma openOrAddRegistration_closed bundle graphicManifest socket regRequest path c instance :
  In instance
     (instancesRep (fst (openOrAddRegistration bundle graphicManifest socket regRequest path c))) ->
  GraphicsInstance.open instance = false ->
  In instance (instancesRep c).
Proof.
  unfold openOrAddRegistration.
  destruct (_findRegistrationBySocketId (Socket.id socket) c) as [r|]; simpl.
  - intros Hin Hclosed. apply In_mutateFound in Hin as [Hin | (x & _ & ->)]; [exact Hin|].
    discriminate.
  - destruct (calcMismatch bundle regRequest) as [outOfDate|]; [|trivial].
    assert (Hpushed : forall c',
      instancesRep c' = instancesRep c ++
        [GraphicsInstance.set_open true
           (newRegistration socket regRequest
              (Boolean_ (Graphic.singleInstance graphicManifest)) outOfDate)] ->
      In instance (instancesRep c') -> GraphicsInstance.open instance = false ->
      In instance (instancesRep c)).
    { intros c' -> Hin Hclosed. apply in_app_or in Hin as [Hin | [<- | []]]; [exact Hin|].
      discriminate. }
    destruct (Boolean_ (Graphic.singleInstance graphicManifest)); now apply Hpushed.
Qed.

Lemma openOrAddRegistration_pendingRemovals bundle graphicManifest socket regRequest path c :
  pendingRemovals (fst (openOrAddRegistration bundle graphicManifest socket regRequest path c))
  = pendingRemovals c.
Proof.
  unfold openOrAddRegistration.
  destruct (_findRegistrationBySocketId (Socket.id socket) c); [reflexivity|].
  destruct (calcMismatch bundle regRequest); [|reflexivity].
  now destruct (Boolean_ (Graphic.singleInstance graphicManifest)).
Qed.

Lemma step_closedAwaitRemoval bundles e c :
  uniqueSocketIds c -> closedAwaitRemoval c -> closedAwaitRemoval (step bundles e c).
Proof.
  intros Hunique Hc. unfold closedAwaitRemoval in *.
  destruct e as [socket regRequest| |socket|s| |]; simpl; trivial.
  - destruct (registerSocket_branches bundles regRequest c)
      as [Hb | [Hg | [(g & existing & Hg & Hsi & He) | (bundle & g & Hb & Hg & Hfree)]]].
    + now rewrite (registerSocket_unknownBundle _ socket _ _ Hb).
    + now rewrite (registerSocket_unknownGraphic _ socket _ _ Hg).
    + now rewrite (registerSocket_occupied _ socket _ _ g existing Hg Hsi He).
    + rewrite (registerSocket_free _ socket _ _ bundle g Hb Hg Hfree).
      intros x Hin Hclosed. rewrite openOrAddRegistration_pendingRemovals.
      apply Hc; trivial. eapply openOrAddRegistration_closed; eauto.
  - destruct (_findRegistrationBySocketId (Socket.id socket) c) as [r|] eqn:Hr.
    + destruct (disconnect_instances _ _ _ Hr) as (before & after & Hl & _ & Hd).
      assert (Hpending : pendingRemovals (disconnect socket c)
                         = pendingRemovals c ++ [Socket.id socket]).
      { unfold disconnect. rewrite Hr. now destruct (GraphicsInstance.singleInstance r). }
      intros x Hin Hclosed. rewrite Hpending, Hd in *. apply in_or_app.
      apply in_app_or in Hin as [Hin | [<- | Hin]].
      * left. apply Hc; trivial. rewrite Hl. apply in_or_app. auto.
      * right. left. simpl. apply find_some in Hr as [_ Hr]. symmetry.
        now apply bySocketId_true.
      * left. apply Hc; trivial. rewrite Hl. apply in_or_app. simpl. auto.
    + now rewrite (disconnect_missing _ _ Hr).
  - unfold removalTimeout. destruct (existsb _ _); [|exact Hc].
    destruct (_findRegistrationBySocketId s c) as [r|] eqn:Hr.
    + destruct (_removeRegistration_found _ _ _ Hr) as (before & after & Hl & _ & ->).
      simpl. intros x Hin Hclosed.
      apply In_clearTimeout_other.
      * apply Hc; trivial. rewrite Hl.
        apply in_app_or in Hin as [Hin | Hin]; apply in_or_app; simpl; auto.
      * intros Hid. unfold uniqueSocketIds in Hunique. rewrite Hl, map_app in Hunique.
        simpl in Hunique. apply NoDup_remove_2 in Hunique. apply Hunique.
        apply find_some in Hr as [_ Hr]. apply bySocketId_true in Hr.
        rewrite Hr, <- Hid, <- map_app. now apply in_map.
    + rewrite (_removeRegistration_missing _ _ Hr). simpl. intros x Hin Hclosed.
      apply In_clearTimeout_other; [now apply Hc|].
      intros Hid. apply find_bySocketId_none in Hr. apply Hr. rewrite <- Hid.
      now apply in_map.
  - destruct (_updateInstanceStatuses_keeps bundles c) as (Hmap & _ & ->).
    intros x' Hin Hclosed.
    apply (in_map (fun instance =>
             GraphicsInstance.set_singleInstance false
               (GraphicsInstance.set_potentiallyOutOfDate false instance))) in Hin.
    rewrite Hmap in Hin. apply in_map_iff in Hin as (x & Hx & Hin).
    apply (f_equal GraphicsInstance.socketId) in Hx as Hid.
    apply (f_equal GraphicsInstance.open) in Hx as Ho. simpl in Hid, Ho.
    rewrite <- Hid. apply Hc; trivial. congruence.
  - destruct (_updateInstanceStatuses_keeps bundles c) as (Hmap & _ & ->).
    intros x' Hin Hclosed.
    apply (in_map (fun instance =>
             GraphicsInstance.set_singleInstance false
               (GraphicsInstance.set_potentiallyOutOfDate false instance))) in Hin.
    rewrite Hmap in Hin. apply in_map_iff in Hin as (x & Hx & Hin).
    apply (f_equal GraphicsInstance.socketId) in Hx as Hid.
    apply (f_equal GraphicsInstance.open) in Hx as Ho. simpl in Hid, Ho.
    rewrite <- Hid. apply Hc; trivial. congruence.
Qed.

(** In every reachable state a closed instance has a removal timer pending
    for its socket: no closed instance is left in the array for good. *)
Theorem reachable_closedAwaitRemoval (c : Coordinator) :
  reachable c -> closedAwaitRemoval c.
Proof.
  intros Hreach.
  assert (Hboth : uniqueSocketIds c /\ closedAwaitRemoval c).
  { induction Hreach as [|bundles e c _ [Hunique Hclosed]].
    - split; [constructor | intros x []].
    - split; [now apply step_uniqueSocketIds | now apply step_closedAwaitRemoval]. }
  exact (proj2 Hboth).
Qed.

(** [A] registered and disconnected: its closed instance waits for the timer
    of [A]. *)
Lemma reachable_closedAwaitRemoval_witness :
  closedAwaitRemoval (disconnect socketA occupiedByA) /\
  pendingRemovals (disconnect socketA occupiedByA) = ["A"] /\
  map GraphicsInstance.open (instancesRep (disconnect socketA occupiedByA)) = [false].
Proof.
  split; [|split; reflexivity].
  apply reachable_closedAwaitRemoval.
  apply (reachable_step (demoBundles (revision "abc")) (socket_disconnect socketA)).
  unfold occupiedByA. apply reachable_run. constructor.
Defined.

(** ** When an instance counts as up to date *)

(** [calcBundleGitMismatch] answers [false] only when the request and the
    bundle both carry a revision and the two hashes are equal; with
    [calcBundleVersionMismatch], an instance is recorded as up to date exactly
    when, besides, the two versions are equal. *)
Theorem calcMismatch_false_iff (bundle : Bundle.t) (regRequest : GraphicRegRequest.t) :
  let sameRevision :=
    exists requestGit bundleGit,
      GraphicRegRequest.bundleGit regRequest = Some requestGit /\
      Bundle.git bundle = Some bundleGit /\
      GitData.hash requestGit = GitData.hash bundleGit in
  (calcBundleGitMismatch bundle regRequest = Returned false <-> sameRevision) /\
  (calcMismatch bundle regRequest = Returned false <->
   sameRevision /\ Bundle.version bundle = GraphicRegRequest.bundleVersion regRequest).
Proof.
  intros sameRevision.
  assert (Hgit : calcBundleGitMismatch bundle regRequest = Returned false <-> sameRevision).
  { unfold sameRevision. rewrite calcBundleGitMismatch_table.
    destruct (GraphicRegRequest.bundleGit regRequest) as [requestGit|],
             (Bundle.git bundle) as [bundleGit|].
    - destruct (String.eqb (GitData.hash requestGit) (GitData.hash bundleGit)) eqn:Hh; simpl.
      + apply String.eqb_eq in Hh. split; [eauto | reflexivity].
      + apply String.eqb_neq in Hh. split; [discriminate|].
        intros (g1 & g2 & [= <-] & [= <-] & Heq). contradiction.
    - split; [discriminate | intros (g1 & g2 & _ & [=] & _)].
    - split; [discriminate | intros (g1 & g2 & [=] & _)].
    - split; [discriminate | intros (g1 & g2 & [=] & _)]. }
  split; [exact Hgit|].
  unfold calcMismatch, calcBundleVersionMismatch.
  destruct (calcBundleGitMismatch bundle regRequest) as [[|]|e].
  - split; [discriminate|]. intros [Hsame _]. apply Hgit in Hsame. discriminate.
  - destruct (String.eqb (Bundle.version bundle) (GraphicRegRequest.bundleVersion regRequest))
      eqn:Hv; simpl.
    + apply String.eqb_eq in Hv. split; [intros _; split; [now apply Hgit | exact Hv] | reflexivity].
    + apply String.eqb_neq in Hv. split; [discriminate | intros [_ Heq]; contradiction].
  - split; [discriminate|]. intros [Hsame _]. apply Hgit in Hsame. discriminate.
Qed.

(** ** The first registration of a socket *)

Lemma calcMismatch_returned bundle regRequest outOfDate :
  calcMismatch bundle regRequest = Returned outOfDate ->
  truthy (GraphicRegRequest.bundleGit regRequest) || truthy (Bundle.git bundle) = true.
Proof.
  unfold calcMismatch. rewrite calcBundleGitMismatch_table.
  destruct (GraphicRegRequest.bundleGit regRequest), (Bundle.git bundle); simpl; trivial.
  discriminate.
Qed.

Lemma asRegRequest_newRegistration socket regRequest singleInstance outOfDate :
  GraphicsInstance.asRegRequest (newRegistration socket regRequest singleInstance outOfDate)
  = regRequest.
Proof. now destruct regRequest. Qed.

Lemma registerSocket_pushed bundles socket regRequest c c1 :
  _findRegistrationBySocketId (Socket.id socket) c = None ->
  registerSocket bundles socket regRequest c = (c1, Returned true) ->
  exists bundle graphicManifest outOfDate,
    bundles (GraphicRegRequest.bundleName regRequest) = Some bundle /\
    findGraphicManifest bundles (normalizedPathName regRequest)
                        (GraphicRegRequest.bundleName regRequest) = Some graphicManifest /\
    calcMismatch bundle regRequest = Returned outOfDate /\
    c1 = (if Boolean_ (Graphic.singleInstance graphicManifest)
          then emit (graphicOccupied (normalizedPathName regRequest))
          else fun c' => c')
           (_addRegistration
              (newRegistration socket regRequest
                 (Boolean_ (Graphic.singleInstance graphicManifest)) outOfDate) c).
Proof.
  intros Hnew Hreg.
  destruct (registerSocket_branches bundles regRequest c)
    as [Hb | [Hg | [(g & existing & Hg & Hsi & He) | (bundle & g & Hb & Hg & Hfree)]]].
  - rewrite (registerSocket_unknownBundle _ socket _ _ Hb) in Hreg. discriminate.
  - rewrite (registerSocket_unknownGraphic _ socket _ _ Hg) in Hreg. discriminate.
  - rewrite (registerSocket_occupied _ socket _ _ g existing Hg Hsi He) in Hreg.
    injection Hreg as _ Hid. apply String.eqb_eq in Hid.
    apply find_some in He as [Hin _]. apply find_bySocketId_none in Hnew.
    exfalso. apply Hnew. rewrite <- Hid. now apply in_map.
  - rewrite (registerSocket_free _ socket _ _ bundle g Hb Hg Hfree) in Hreg.
    unfold openOrAddRegistration in Hreg. rewrite Hnew in Hreg.
    destruct (calcMismatch bundle regRequest) as [outOfDate|] eqn:Hcalc; [|discriminate].
    exists bundle, g, outOfDate. repeat split; trivial.
    destruct (Boolean_ (Graphic.singleInstance g)); now injection Hreg as <-.
Qed.

(** A socket without an instance whose registration is accepted gets one new
    instance, pushed at the end of the array: it carries the request's
    properties (its own [pathName], not the normalized one), the socket's id
    and address, [open = true], [singleInstance] from the manifest and
    [potentiallyOutOfDate] from the comparison with the bundle.  Exactly when
    the graphic is single-instance, [graphicOccupied] is emitted, with the
    normalized path.  No timer is set.  When the request names the declared
    path, a rescan under the same bundle manager would leave the new instance
    as it is. *)
Theorem first_registration_records
  (bundles : BundleManager) (socket : Socket.t) (regRequest : GraphicRegRequest.t)
  (c c1 : Coordinator) :
  _findRegistrationBySocketId (Socket.id socket) c = None ->
  registerSocket bundles socket regRequest c = (c1, Returned true) ->
  exists bundle graphicManifest registration,
    bundles (GraphicRegRequest.bundleName regRequest) = Some bundle /\
    findGraphicManifest bundles (normalizedPathName regRequest)
                        (GraphicRegRequest.bundleName regRequest) = Some graphicManifest /\
    instancesRep c1 = instancesRep c ++ [registration] /\
    registration =
      GraphicsInstance.mk (Socket.remoteAddress socket)
        (GraphicRegRequest.timestamp regRequest) (GraphicRegRequest.bundleName regRequest)
        (GraphicRegRequest.bundleVersion regRequest) (GraphicRegRequest.bundleGit regRequest)
        (GraphicRegRequest.pathName regRequest)
        (Boolean_ (Graphic.singleInstance graphicManifest))
        (Socket.id socket) true (staleAgainst bundle registration) /\
    appEmitted c1 =
      appEmitted c ++
      (if Boolean_ (Graphic.singleInstance graphicManifest)
       then [graphicOccupied (normalizedPathName regRequest)] else []) /\
    pendingRemovals c1 = pendingRemovals c /\
    (normalizedPathName regRequest = GraphicRegRequest.pathName regRequest ->
     updateInstanceStatus bundles registration = Returned registration).
Proof.
  intros Hnew Hreg.
  destruct (registerSocket_pushed _ _ _ _ _ Hnew Hreg)
    as (bundle & g & outOfDate & Hb & Hg & Hcalc & ->).
  set (registration := newRegistration socket regRequest
                         (Boolean_ (Graphic.singleInstance g)) outOfDate).
  assert (Hstale : outOfDate = staleAgainst bundle registration).
  { pose proof (calcMismatch_returned _ _ _ Hcalc) as Hgit.
    pose proof (calcMismatch_staleAgainst bundle registration Hgit) as Hs.
    unfold registration in Hs at 1. rewrite asRegRequest_newRegistration in Hs.
    congruence. }
  exists bundle, g, registration. repeat split; trivial.
  - now destruct (Boolean_ (Graphic.singleInstance g)).
  - rewrite <- Hstale. reflexivity.
  - destruct (Boolean_ (Graphic.singleInstance g)); simpl; [reflexivity|].
    now rewrite app_nil_r.
  - now destruct (Boolean_ (Graphic.singleInstance g)).
  - intros Hdeclared. unfold updateInstanceStatus.
    change (GraphicsInstance.bundleName registration)
      with (GraphicRegRequest.bundleName regRequest).
    change (GraphicsInstance.pathName registration)
      with (GraphicRegRequest.pathName regRequest).
    rewrite <- Hdeclared, Hb, Hg.
    unfold registration at 1. rewrite asRegRequest_newRegistration, Hcalc.
    reflexivity.
Qed.

(** [A] is the first to register the index graphic of [demo], reporting
    revision [def] while the bundle is at [abc]: recorded, stale. *)
Lemma first_registration_records_witness :
  exists registration,
    instancesRep (fst (registerSocket (demoBundles (revision "abc")) socketA
                         (demoRequest demoIndex (revision "def")) initial))
    = [registration] /\
    GraphicsInstance.potentiallyOutOfDate registration = true /\
    GraphicsInstance.socketId registration = "A".
Proof.
  destruct (first_registration_records
              (demoBundles (revision "abc")) socketA (demoRequest demoIndex (revision "def"))
              initial
              (fst (registerSocket (demoBundles (revision "abc")) socketA
                      (demoRequest demoIndex (revision "def")) initial))
              eq_refl eq_refl)
    as (bundle & g & registration & _ & _ & Hl & Hr & _).
  exists registration. split; [exact Hl|].
  vm_compute in Hl. injection Hl as <-. split; reflexivity.
Defined.

(** ** Register, disconnect, removal *)

Lemma clearTimeout_last socketId pending :
  ~ In socketId pending -> clearTimeout socketId (pending ++ [socketId]) = pending.
Proof.
  induction pending as [|s t IH]; simpl; intros Hnotin.
  - now rewrite String.eqb_refl.
  - destruct (String.eqb s socketId) eqn:Hs.
    + apply String.eqb_eq in Hs. tauto.
    + rewrite IH; tauto.
Qed.

(** A socket without an instance registers and is accepted, disconnects, and
    its removal timer runs: the array is back to what it was before the
    registration, and so are the pending timers when none was pending for the
    socket.  The events emitted on the way are [graphicOccupied] with the
    normalized path and [graphicAvailable] with the request's path, both
    exactly when the graphic is single-instance. *)
Theorem register_disconnect_timeout_round_trip
  (bundles : BundleManager) (socket : Socket.t) (regRequest : GraphicRegRequest.t)
  (c c1 : Coordinator) :
  _findRegistrationBySocketId (Socket.id socket) c = None ->
  registerSocket bundles socket regRequest c = (c1, Returned true) ->
  let c3 := removalTimeout (Socket.id socket) (disconnect socket c1) in
  instancesRep c3 = instancesRep c /\
  (~ In (Socket.id socket) (pendingRemovals c) -> pendingRemovals c3 = pendingRemovals c) /\
  exists graphicManifest,
    findGraphicManifest bundles (normalizedPathName regRequest)
                        (GraphicRegRequest.bundleName regRequest) = Some graphicManifest /\
    appEmitted c3 =
      appEmitted c ++
      (if Boolean_ (Graphic.singleInstance graphicManifest)
       then [graphicOccupied (normalizedPathName regRequest);
             graphicAvailable (GraphicRegRequest.pathName regRequest)]
       else []).
Proof.
  intros Hnew Hreg.
  destruct (registerSocket_pushed _ _ _ _ _ Hnew Hreg)
    as (bundle & g & outOfDate & Hb & Hg & Hcalc & Hc1).
  set (registration := newRegistration socket regRequest
                         (Boolean_ (Graphic.singleInstance g)) outOfDate) in *.
  assert (Hl : instancesRep c1 = instancesRep c ++ [registration]).
  { rewrite Hc1. now destruct (Boolean_ (Graphic.singleInstance g)). }
  assert (Hmatch : forall b,
             bySocketId (Socket.id socket) (GraphicsInstance.set_open b registration) = true).
  { intros b. unfold bySocketId. simpl. apply String.eqb_refl. }
  assert (Hmatch0 : bySocketId (Socket.id socket) registration = true).
  { unfold bySocketId. simpl. apply String.eqb_refl. }
  assert (Hfind : _findRegistrationBySocketId (Socket.id socket) c1 = Some registration).
  { unfold _findRegistrationBySocketId in *. rewrite Hl, (find_app_none _ _ _ Hnew).
    cbn [find]. now rewrite Hmatch0. }
  set (c2 := disconnect socket c1).
  assert (Hl2 : instancesRep c2
                = instancesRep c ++ [GraphicsInstance.set_open false registration]).
  { unfold c2, disconnect. rewrite Hfind.
    destruct (GraphicsInstance.singleInstance registration); simpl; rewrite Hl;
      apply mutateFound_app; trivial. }
  assert (Hp2 : pendingRemovals c2 = pendingRemovals c ++ [Socket.id socket]).
  { unfold c2, disconnect. rewrite Hfind, Hc1.
    destruct (GraphicsInstance.singleInstance registration),
             (Boolean_ (Graphic.singleInstance g)); reflexivity. }
  assert (He2 : appEmitted c2 =
                appEmitted c ++
                (if Boolean_ (Graphic.singleInstance g)
                 then [graphicOccupied (normalizedPathName regRequest);
                       graphicAvailable (GraphicRegRequest.pathName regRequest)]
                 else [])).
  { unfold c2, disconnect. rewrite Hfind, Hc1. unfold registration. simpl.
    destruct (Boolean_ (Graphic.singleInstance g)); simpl.
    - now rewrite <- app_assoc.
    - now rewrite app_nil_r. }
  assert (Hpending : existsb (String.eqb (Socket.id socket)) (pendingRemovals c2) = true).
  { rewrite Hp2, existsb_app. simpl. rewrite String.eqb_refl. simpl. apply orb_true_r. }
  assert (Hremove : _removeRegistration (Socket.id socket) c2
                    = (withInstances c2 (instancesRep c),
                       Some (GraphicsInstance.set_open false registration))).
  { unfold _removeRegistration. rewrite Hl2.
    rewrite (findIndex_app _ _ _ _ Hnew (Hmatch false)), splice1_app.
    now rewrite app_nil_r. }
  cbv zeta. fold c2. unfold removalTimeout. rewrite Hpending, Hremove. simpl.
  split; [reflexivity|]. split.
  - intros Hnotin. rewrite Hp2. now apply clearTimeout_last.
  - exists g. split; [exact Hg | exact He2].
Qed.

(** [A] registers the index graphic of [demo] through its directory while [B]
    shows the info graphic, disconnects, and is removed. *)
Lemma register_disconnect_timeout_round_trip_witness :
  let c1 := fst (registerSocket (demoBundles (revision "abc")) socketA
                   (demoRequest demoDirectory (revision "abc")) infoShownByB) in
  let c3 := removalTimeout "A" (disconnect socketA c1) in
  instancesRep c3 = instancesRep infoShownByB /\
  appEmitted c3 =
    appEmitted infoShownByB ++ [graphicOccupied demoIndex; graphicAvailable demoDirectory].
Proof.
  cbv zeta.
  assert (Hnew : _findRegistrationBySocketId (Socket.id socketA) infoShownByB = None)
    by reflexivity.
  assert (Hreg : registerSocket (demoBundles (revision "abc")) socketA
                   (demoRequest demoDirectory (revision "abc")) infoShownByB
                 = (fst (registerSocket (demoBundles (revision "abc")) socketA
                           (demoRequest demoDirectory (revision "abc")) infoShownByB),
                    Returned true))
    by reflexivity.
  destruct (register_disconnect_timeout_round_trip _ _ _ _ _ Hnew Hreg)
    as (Hinstances & _ & _).
  split; [exact Hinstances | reflexivity].
Defined.

(** ** Strings: [endsWith], [split] and [join] *)

Lemma substring_all s : substring 0 (String.length s) s = s.
Proof.
  induction s as [|ch s IH]; simpl; [reflexivity | now rewrite IH].
Qed.

Lemma substring_append pre suffix :
  substring (String.length pre) (String.length suffix) (String.append pre suffix) = suffix.
Proof.
  induction pre as [|ch pre IH]; simpl; [apply substring_all | exact IH].
Qed.

Lemma length_append (a b : string) :
  String.length (String.append a b) = String.length a + String.length b.
Proof.
  induction a as [|ch a IH]; simpl; [reflexivity | now rewrite IH].
Qed.

Lemma substring_cut k m s :
  k + m = String.length s ->
  s = String.append (substring 0 k s) (substring k m s).
Proof.
  revert s. induction k as [|k IH]; intros s Hlen.
  - simpl in Hlen. subst m. rewrite substring_all. now destruct s.
  - destruct s as [|ch s]; simpl in *; [discriminate|].
    f_equal. apply IH. lia.
Qed.

(** [s.endsWith(suffix)] holds exactly when [s] is some string followed by
    [suffix]. *)
Lemma endsWith_spec s suffix :
  endsWith s suffix = true <-> exists pre, s = String.append pre suffix.
Proof.
  unfold endsWith. rewrite andb_true_iff, Nat.leb_le, String.eqb_eq. split.
  - intros [Hle Hsub]. exists (substring 0 (String.length s - String.length suffix) s).
    pose proof (substring_cut (String.length s - String.length suffix)
                  (String.length suffix) s) as Hcut.
    rewrite Hsub in Hcut. apply Hcut. lia.
  - intros [pre ->]. rewrite length_append. split; [lia|].
    replace (String.length pre + String.length suffix - String.length suffix)
      with (String.length pre) by lia.
    apply substring_append.
Qed.

Lemma list_ascii_of_string_append (a b : string) :
  list_ascii_of_string (String.append a b)
  = list_ascii_of_string a ++ list_ascii_of_string b.
Proof.
  induction a as [|ch a IH]; simpl; [reflexivity | now rewrite IH].
Qed.

(** A string does not end both with [x] and with [x] followed by a character
    that is not the last one of [x]. *)
Lemma endsWith_longer s x last ch :
  ch <> last ->
  endsWith s (String.append x (String last EmptyString)) = true ->
  endsWith s (String.append (String.append x (String last EmptyString))
                            (String ch EmptyString)) = false.
Proof.
  intros Hch Hshort.
  destruct (endsWith s (String.append (String.append x (String last EmptyString))
                                      (String ch EmptyString))) eqn:Hlong; [|reflexivity].
  apply endsWith_spec in Hshort as [pre1 H1]. apply endsWith_spec in Hlong as [pre2 H2].
  apply (f_equal list_ascii_of_string) in H1, H2.
  rewrite !list_ascii_of_string_append in H1, H2. simpl in H1, H2.
  rewrite H1 in H2.
  apply (f_equal (fun l => List.last l last)) in H2.
  rewrite !app_assoc in H2. rewrite !last_last in H2. congruence.
Qed.

Lemma split_nonempty sep s : split sep s <> [].
Proof.
  destruct s as [|ch s]; simpl; [discriminate|].
  destruct (Ascii.eqb ch sep); [discriminate|].
  destruct (split sep s); discriminate.
Qed.

(** [s.split(sep).join(sep)] is [s]. *)
Lemma join_split sep s : join (String sep EmptyString) (split sep s) = s.
Proof.
  induction s as [|ch s IH]; simpl; [reflexivity|].
  destruct (Ascii.eqb ch sep) eqn:Hch.
  - apply Ascii.eqb_eq in Hch. subst ch.
    destruct (split sep s) as [|first others] eqn:Hs; [now apply split_nonempty in Hs|].
    simpl in *. now rewrite IH.
  - destruct (split sep s) as [|first others] eqn:Hs; [now apply split_nonempty in Hs|].
    destruct others as [|second others]; simpl in *; now rewrite <- IH.
Qed.

Lemma split_segment sep segment rest :
  ~ In sep (list_ascii_of_string segment) ->
  split sep (String.append segment (String sep rest)) = segment :: split sep rest.
Proof.
  induction segment as [|ch segment IH]; simpl; intros Hnotin.
  - now rewrite Ascii.eqb_refl.
  - destruct (Ascii.eqb ch sep) eqn:Hch.
    + apply Ascii.eqb_eq in Hch. tauto.
    + rewrite IH by tauto. reflexivity.
Qed.

(** ** The [/instance/*] route *)

(** The route drops the first segment of the request path and keeps what
    follows its second slash, slashes included; it injects the setup script
    into that file when its name ends in [.html] and passes the request on
    otherwise. *)
Theorem instanceRoute_strips_first_segment (BUILD_PATH segment rest : string) :
  ~ In slash (list_ascii_of_string segment) ->
  GraphicsLib.instanceRoute BUILD_PATH
    (String.append "/" (String.append segment (String.append "/" rest)))
  = if endsWith rest ".html"
    then GraphicsLib.injectScripts [BUILD_PATH; rest] None None
    else GraphicsLib.next.
Proof.
  intros Hsegment. unfold GraphicsLib.instanceRoute.
  assert (Hsplit : split slash (String.append "/" (String.append segment (String.append "/" rest)))
                   = EmptyString :: segment :: split slash rest).
  { change (String.append "/" (String.append segment (String.append "/" rest)))
      with (String slash (String.append segment (String slash rest))).
    simpl. now rewrite split_segment. }
  rewrite Hsplit. simpl skipn.
  change "/" with (String slash EmptyString). now rewrite join_split.
Qed.

Lemma instanceRoute_strips_first_segment_witness :
  GraphicsLib.instanceRoute "build" "/instance/js/graphic.html"
  = GraphicsLib.injectScripts ["build"; "js/graphic.html"] None None.
Proof.
  apply (instanceRoute_strips_first_segment "build" "instance" "js/graphic.html").
  simpl. intros H. repeat (destruct H as [H | H]; [discriminate H|]). exact H.
Defined.

(** ** The [/bundles/:bundleName/graphics*] route *)

Lemma append_assoc (a b c : string) :
  String.append (String.append a b) c = String.append a (String.append b c).
Proof.
  induction a as [|ch a IH]; simpl; [reflexivity | now rewrite IH].
Qed.

Lemma isGraphic_true bundle name :
  GraphicsLib.isGraphic bundle name = true <->
  exists graphic,
    In graphic (GraphicsLib.graphics bundle) /\
    (name = String.append "/" (GraphicsLib.file graphic) \/ name = GraphicsLib.file graphic).
Proof.
  unfold GraphicsLib.isGraphic. rewrite existsb_exists. split.
  - intros (graphic & Hin & Hname). exists graphic. split; [exact Hin|].
    apply orb_true_iff in Hname as [H | H]; apply String.eqb_eq in H; auto.
  - intros (graphic & Hin & Hname). exists graphic. split; [exact Hin|].
    apply orb_true_iff. destruct Hname as [-> | ->]; rewrite String.eqb_refl; auto.
Qed.

(** The route injects the setup script exactly when the bundle is installed,
    the request is not the one it redirects, and the resource asked for is
    the file of a declared graphic, written with or without a leading slash;
    the file is then [path.join(bundle.dir, 'graphics', resName)], and the
    [sound] option tells whether the bundle has a sound cue ([undefined] when
    it has no [soundCues] property).  No other file gets the script. *)
Theorem graphicsRoute_injects_declared_graphics
  (bundles : string -> option GraphicsLib.Bundle) (req : GraphicsLib.Request)
  (fileLocation : list string) (createApiInstance : option GraphicsLib.Bundle)
  (sound : option bool) :
  GraphicsLib.graphicsRoute bundles req
  = GraphicsLib.injectScripts fileLocation createApiInstance sound
  <->
  exists bundle,
    bundles (GraphicsLib.params_bundleName req) = Some bundle /\
    endsWith (GraphicsLib.path req)
      (String.append "/" (String.append (GraphicsLib.params_bundleName req) "/graphics"))
    = false /\
    (exists graphic,
        In graphic (GraphicsLib.graphics bundle) /\
        (GraphicsLib.resName req = String.append "/" (GraphicsLib.file graphic) \/
         GraphicsLib.resName req = GraphicsLib.file graphic)) /\
    fileLocation = [GraphicsLib.dir bundle; "graphics"; GraphicsLib.resName req] /\
    createApiInstance = Some bundle /\
    sound = option_map (fun cues => Nat.ltb 0 (length cues)) (GraphicsLib.soundCues bundle).
Proof.
  unfold GraphicsLib.graphicsRoute. split.
  - destruct (bundles (GraphicsLib.params_bundleName req)) as [bundle|]; [|discriminate].
    destruct (endsWith _ _); [discriminate|].
    destruct (GraphicsLib.isGraphic bundle (GraphicsLib.resName req)) eqn:Hg; [|discriminate].
    intros [= <- <- <-]. exists bundle. repeat split; trivial.
    now apply isGraphic_true.
  - intros (bundle & -> & -> & Hg & -> & -> & ->).
    apply isGraphic_true in Hg. now rewrite Hg.
Qed.

(** A request for the directory of a bundle's graphics, trailing slash
    included, is never redirected and is answered from [index.html], whatever
    the wildcard of the route captured; and the registration handler looks
    the page it gets from that address up under the address followed by
    [index.html]. *)
Theorem directory_request_is_index
  (bundles : string -> option GraphicsLib.Bundle) (req : GraphicsLib.Request)
  (bundle : GraphicsLib.Bundle) :
  bundles (GraphicsLib.params_bundleName req) = Some bundle ->
  endsWith (GraphicsLib.path req)
    (String.append "/" (String.append (GraphicsLib.params_bundleName req) "/graphics/"))
  = true ->
  GraphicsLib.resName req = "index.html" /\
  (exists createApiInstance sound,
      GraphicsLib.graphicsRoute bundles req
      = GraphicsLib.injectScripts [GraphicsLib.dir bundle; "graphics"; "index.html"]
          createApiInstance sound \/
      GraphicsLib.graphicsRoute bundles req
      = GraphicsLib.sendFile [GraphicsLib.dir bundle; "graphics"; "index.html"]) /\
  (forall timestamp bundleVersion bundleGit,
      normalizedPathName
        (GraphicRegRequest.mk timestamp (GraphicsLib.path req)
           (GraphicsLib.params_bundleName req) bundleVersion bundleGit)
      = String.append (GraphicsLib.path req) "index.html").
Proof.
  intros Hbundle Hdirectory.
  assert (Hres : GraphicsLib.resName req = "index.html").
  { unfold GraphicsLib.resName. now rewrite Hdirectory. }
  assert (Hnoredirect :
    endsWith (GraphicsLib.path req)
      (String.append "/" (String.append (GraphicsLib.params_bundleName req) "/graphics"))
    = false).
  { destruct (endsWith (GraphicsLib.path req)
                (String.append "/"
                   (String.append (GraphicsLib.params_bundleName req) "/graphics")))
      eqn:Hshort; [|reflexivity].
    pose proof (endsWith_longer (GraphicsLib.path req)
                  (String.append "/"
                     (String.append (GraphicsLib.params_bundleName req) "/graphic"))
                  "s"%char "/"%char) as Hlonger.
    assert (Hs : String.append
                   (String.append "/"
                      (String.append (GraphicsLib.params_bundleName req) "/graphic")) "s"
                 = String.append "/"
                     (String.append (GraphicsLib.params_bundleName req) "/graphics")).
    { rewrite !append_assoc. reflexivity. }
    assert (Hl : String.append
                   (String.append
                      (String.append "/"
                         (String.append (GraphicsLib.params_bundleName req) "/graphic")) "s")
                   "/"
                 = String.append "/"
                     (String.append (GraphicsLib.params_bundleName req) "/graphics/")).
    { rewrite !append_assoc. reflexivity. }
    rewrite Hl, Hs in Hlonger. rewrite Hlonger in Hdirectory; [discriminate | | exact Hshort].
    discriminate. }
  split; [exact Hres|]. split.
  - unfold GraphicsLib.graphicsRoute. rewrite Hbundle, Hnoredirect, Hres.
    exists (Some bundle),
      (option_map (fun cues => Nat.ltb 0 (length cues)) (GraphicsLib.soundCues bundle)).
    destruct (GraphicsLib.isGraphic bundle "index.html"); [left | right]; reflexivity.
  - intros timestamp bundleVersion bundleGit. unfold normalizedPathName.
    cbn [GraphicRegRequest.pathName GraphicRegRequest.bundleName].
    now rewrite Hdirectory.
Qed.

(** The bundle [demo] as the graphics routes read it. *)
Lemma directory_request_is_index_witness :
  GraphicsLib.graphicsRoute
    (fun bundleName =>
       if String.eqb bundleName "demo"
       then Some (GraphicsLib.mkBundle "bundles/demo"
                    [GraphicsLib.mkGraphic "index.html"; GraphicsLib.mkGraphic "info.html"]
                    None)
       else None)
    (GraphicsLib.mkRequest demoDirectory demoDirectory "demo" "/")
  = GraphicsLib.injectScripts ["bundles/demo"; "graphics"; "index.html"]
      (Some (GraphicsLib.mkBundle "bundles/demo"
               [GraphicsLib.mkGraphic "index.html"; GraphicsLib.mkGraphic "info.html"] None))
      None /\
  normalizedPathName (demoRequest demoDirectory None) = demoIndex.
Proof.
  destruct (directory_request_is_index
              (fun bundleName =>
                 if String.eqb bundleName "demo"
                 then Some (GraphicsLib.mkBundle "bundles/demo"
                              [GraphicsLib.mkGraphic "index.html";
                               GraphicsLib.mkGraphic "info.html"] None)
                 else None)
              (GraphicsLib.mkRequest demoDirectory demoDirectory "demo" "/")
              (GraphicsLib.mkBundle "bundles/demo"
                 [GraphicsLib.mkGraphic "index.html"; GraphicsLib.mkGraphic "info.html"] None)
              eq_refl eq_refl)
    as (_ & _ & Hnormalized).
  split; [reflexivity|].
  exact (Hnormalized 0%Z "1.0.0" None).
Defined.

(** ** Registrations through a path that the handler extends *)

Lemma find_app_unmatched {A : Type} (p : A -> bool) (l : list A) (x : A) :
  p x = false -> find p (l ++ [x]) = find p l.
Proof.
  intros Hx. induction l as [|y t IH]; simpl; [now rewrite Hx|].
  now destruct (p y).
Qed.

(** A registration through a path that the handler extends with [index.html]
    is recorded under the path as requested, so the lookup of an open
    instance under the extended path finds after it what it found before.  A
    second socket without an instance that sends the same request is
    therefore accepted as well, and two more instances are open under the
    requested path than before the first registration, single-instance
    graphic or not. *)
Theorem extended_path_registration_is_not_seen
  (bundles : BundleManager) (A B : Socket.t) (regRequest : GraphicRegRequest.t)
  (c c1 : Coordinator) :
  normalizedPathName regRequest <> GraphicRegRequest.pathName regRequest ->
  _findRegistrationBySocketId (Socket.id A) c = None ->
  registerSocket bundles A regRequest c = (c1, Returned true) ->
  _findOpenRegistrationByPathName (normalizedPathName regRequest) c1
  = _findOpenRegistrationByPathName (normalizedPathName regRequest) c /\
  (_findRegistrationBySocketId (Socket.id B) c1 = None ->
   exists c2,
     registerSocket bundles B regRequest c1 = (c2, Returned true) /\
     openCount (GraphicRegRequest.pathName regRequest) c2
     = 2 + openCount (GraphicRegRequest.pathName regRequest) c).
Proof.
  intros Hextended HA Hreg.
  destruct (registerSocket_pushed _ _ _ _ _ HA Hreg)
    as (bundle & g & outOfDate & Hb & Hg & Hcalc & Hc1).
  assert (Hl : forall socket c0,
    instancesRep
      ((if Boolean_ (Graphic.singleInstance g)
        then emit (graphicOccupied (normalizedPathName regRequest))
        else fun c' => c')
         (_addRegistration
            (newRegistration socket regRequest (Boolean_ (Graphic.singleInstance g)) outOfDate)
            c0))
    = instancesRep c0 ++
      [newRegistration socket regRequest (Boolean_ (Graphic.singleInstance g)) outOfDate]).
  { intros socket c0. now destruct (Boolean_ (Graphic.singleInstance g)). }
  assert (Hunseen : forall socket,
    byOpenPathName (normalizedPathName regRequest)
      (newRegistration socket regRequest (Boolean_ (Graphic.singleInstance g)) outOfDate)
    = false).
  { intros socket. unfold byOpenPathName. simpl.
    apply not_eq_sym, String.eqb_neq in Hextended. now rewrite Hextended. }
  assert (Hcounted : forall socket,
    byOpenPathName (GraphicRegRequest.pathName regRequest)
      (newRegistration socket regRequest (Boolean_ (Graphic.singleInstance g)) outOfDate)
    = true).
  { intros socket. apply byOpenPathName_true. split; reflexivity. }
  assert (Hsame : _findOpenRegistrationByPathName (normalizedPathName regRequest) c1
                  = _findOpenRegistrationByPathName (normalizedPathName regRequest) c).
  { unfold _findOpenRegistrationByPathName. rewrite Hc1, Hl.
    apply find_app_unmatched, Hunseen. }
  split; [exact Hsame|]. intros HB.
  assert (Hfree : Boolean_ (Graphic.singleInstance g) = true ->
                  _findOpenRegistrationByPathName (normalizedPathName regRequest) c1 = None).
  { intros Hsi. rewrite Hsame.
    destruct (_findOpenRegistrationByPathName (normalizedPathName regRequest) c)
      as [existing|] eqn:He; [|reflexivity].
    rewrite (registerSocket_occupied _ A _ _ g existing Hg Hsi He) in Hreg.
    injection Hreg as _ Hid. apply String.eqb_eq in Hid.
    apply find_some in He as [Hin _]. apply find_bySocketId_none in HA.
    exfalso. apply HA. rewrite <- Hid. now apply in_map. }
  destruct (instancesRep_openOrAdd_new bundle g B regRequest
              (normalizedPathName regRequest) c1 outOfDate HB Hcalc) as [Hreply Hl2].
  rewrite <- (registerSocket_free bundles B regRequest c1 bundle g Hb Hg Hfree) in Hreply, Hl2.
  destruct (registerSocket bundles B regRequest c1) as [c2 reply]. simpl in *. subst reply.
  exists c2. split; [reflexivity|].
  unfold openCount. rewrite Hl2, Hc1, Hl, !filter_app, !length_app. simpl.
  rewrite !Hcounted. simpl. lia.
Qed.

(** [A], then [B], register the single-instance index graphic of [demo]
    through its directory. *)
Lemma extended_path_registration_is_not_seen_witness :
  exists c2,
    registerSocket (demoBundles (revision "abc")) socketB
      (demoRequest demoDirectory (revision "abc"))
      (fst (registerSocket (demoBundles (revision "abc")) socketA
              (demoRequest demoDirectory (revision "abc")) initial))
    = (c2, Returned true) /\
    openCount demoDirectory c2 = 2.
Proof.
  assert (Hextended : normalizedPathName (demoRequest demoDirectory (revision "abc"))
                      <> GraphicRegRequest.pathName (demoRequest demoDirectory (revision "abc")))
    by discriminate.
  assert (HA : _findRegistrationBySocketId (Socket.id socketA) initial = None) by reflexivity.
  assert (Hreg : registerSocket (demoBundles (revision "abc")) socketA
                   (demoRequest demoDirectory (revision "abc")) initial
                 = (fst (registerSocket (demoBundles (revision "abc")) socketA
                           (demoRequest demoDirectory (revision "abc")) initial),
                    Returned true)) by reflexivity.
  destruct (extended_path_registration_is_not_seen
              (demoBundles (revision "abc")) socketA socketB _ _ _ Hextended HA Hreg)
    as [_ Hsecond].
  destruct (Hsecond eq_refl) as (c2 & Hreply & Hcount).
  exists c2. split; [exact Hreply | exact Hcount].
Defined.
